(** * Diamond: the [.dmd] packer and unpacker of [diamond.py]

    A shallow embedding of [Diamond.empacotar_comprimir] and
    [Diamond.descomprimir_desempacotar], with the pieces of the Python
    runtime they call ([struct], [str.encode], [bytes.decode], [os.path],
    file reads and writes, [print], [zlib]) modelled next to them.

    Conventions.
    - A Python [int] that is a length, a count or a field value is an [N].
    - A [bytes] or [bytearray] value is a [list byte].
    - A Python [str] is the list of its code points ([list N]).
    - The file system is a finite map from paths to nodes; [print] appends
      to a log kept in the world, and so do the two calls into [zlib].
    - A Python function that may raise runs in the monad [M]: it returns a
      value, raises an exception, or leaves through [sys.exit].

    What the model leaves to the environment.
    - [struct] format ['I'] is taken in its usual native form, 4 bytes,
      least significant byte first.
    - [os.path] is the POSIX one.
    - The disk is a finite map from paths, as the program spells them, to
      nodes: two spellings of one path (["x"] and ["./x"]) are two keys,
      and there are no links.
    - The disk is flat: a read fails on a missing path or a directory, a
      write fails on a directory, and nothing else is refused. A real disk
      refuses more (a missing parent directory, a parent that is a regular
      file, an empty name, permissions, a full device). So a call that
      returns on a real disk returns here, having written the same files,
      while a call that returns here may fail there: the theorems on what
      an unpacking wrote, for archives in general, take its return as a
      hypothesis. [os.makedirs] records the directory it is asked for;
      the missing parents it creates on the way are not recorded, and no
      theorem speaks of them.
    - [print] always succeeds.
    - [zlib] is an interface: a compressor, a decompressor that may
      refuse its input, and the law that decompressing undoes
      compressing.
    - Floating point is binary64, with Rocq's primitive floats and their
      specification [SpecFloat].
    - [main] is modelled from the line after [parser.parse_args()]; the
      parsing itself is argparse's. *)

From Stdlib Require Import NArith ZArith Lia List Bool.
From Stdlib.Strings Require Import Byte Ascii String.
From Stdlib Require Import Floats DecimalString.
From stdpp Require Import base option list gmap.

Local Open Scope N_scope.

(** Linear arithmetic over [N] with division and remainder by constants. *)
Ltac nlia := zify; Z.to_euclidean_division_equations; lia.

(* ===================================================================== *)
(** ** Bytes and integers *)
(* ===================================================================== *)

Abbreviation bytes := (list byte).

#[export] Instance byte_eqdec : EqDecision byte := Byte.byte_eq_dec.

(** The byte whose value is [n mod 256]. *)
Definition byte_of_N (n : N) : byte :=
  match Byte.of_N (n mod 256) with
  | Some b => b
  | None => x00
  end.

(** [len(x)] as a Python int. *)
Definition len {A : Type} (l : list A) : N := N.of_nat (length l).

(** [x[a:b]] for non-negative [a] and [b]: Python clips a slice to the
    sequence, it never raises. *)
Definition fatia {A : Type} (l : list A) (a b : N) : list A :=
  take (N.to_nat (b - a)) (drop (N.to_nat a) l).

(* ===================================================================== *)
(** ** Outcomes of a Python call *)
(* ===================================================================== *)

(** The subclasses of [Exception] the two functions can meet. *)
Inductive excecao : Type :=
| StructError
| IndexError
| ValueError
| UnicodeEncodeError
| UnicodeDecodeError
| ZlibError
| FileNotFoundError
| IsADirectoryError
| FileExistsError
| ZeroDivisionError.

(** A call returns, raises an [Exception], or raises [SystemExit] (which
    is a [BaseException]: [except Exception] does not catch it). *)
Inductive resultado (A : Type) : Type :=
| Retorno (a : A)
| Levanta (e : excecao)
| Sai (codigo : N).
Arguments Retorno {A} a.
Arguments Levanta {A} e.
Arguments Sai {A} codigo.

(* ===================================================================== *)
(** ** [struct.pack('I', n)] and [struct.unpack('I', b)] *)
(* ===================================================================== *)

(** Format ['I'] in native mode: an unsigned int of 4 bytes, here in
    little-endian byte order. [struct.pack] raises [struct.error] on a
    value outside [0 .. 2^32 - 1]. *)
Definition struct_pack_I (n : N) : resultado bytes :=
  if n <? 2 ^ 32
  then Retorno [byte_of_N n; byte_of_N (n / 256);
                byte_of_N (n / 65536); byte_of_N (n / 16777216)]
  else Levanta StructError.

(** [struct.unpack('I', b)[0]]: [struct.error] unless [b] has exactly 4
    bytes. *)
Definition struct_unpack_I (b : bytes) : resultado N :=
  match b with
  | [b0; b1; b2; b3] =>
      Retorno (Byte.to_N b0 + 256 * Byte.to_N b1
               + 65536 * Byte.to_N b2 + 16777216 * Byte.to_N b3)
  | _ => Levanta StructError
  end.

(* ===================================================================== *)
(** ** Python strings and UTF-8 *)
(* ===================================================================== *)

Abbreviation str := (list N).

(** An ASCII literal as a Python string. *)
Fixpoint py (s : string) : str :=
  match s with
  | EmptyString => []
  | String c r => N_of_ascii c :: py r
  end.

(** One code point to UTF-8 (RFC 3629). The surrogates [U+D800..U+DFFF]
    have no encoding ([UnicodeEncodeError]); values from [0x110000] on are
    not code points. *)
Definition encode_cp (c : N) : option bytes :=
  if c <? 0x80 then Some [byte_of_N c]
  else if c <? 0x800 then
    Some [byte_of_N (0xC0 + c / 64); byte_of_N (0x80 + c mod 64)]
  else if c <? 0x10000 then
    if (0xD800 <=? c) && (c <=? 0xDFFF) then None
    else Some [byte_of_N (0xE0 + c / 4096);
               byte_of_N (0x80 + (c / 64) mod 64);
               byte_of_N (0x80 + c mod 64)]
  else if c <? 0x110000 then
    Some [byte_of_N (0xF0 + c / 262144);
          byte_of_N (0x80 + (c / 4096) mod 64);
          byte_of_N (0x80 + (c / 64) mod 64);
          byte_of_N (0x80 + c mod 64)]
  else None.

(** [s.encode('utf-8')] *)
Fixpoint str_encode (s : str) : resultado bytes :=
  match s with
  | [] => Retorno []
  | c :: r =>
      match encode_cp c, str_encode r with
      | Some b, Retorno br => Retorno (b ++ br)
      | None, _ => Levanta UnicodeEncodeError
      | _, r' => r'
      end
  end.

(** A continuation byte [10xxxxxx], as its six payload bits. *)
Definition cont (b : byte) : option N :=
  let v := Byte.to_N b in
  if (0x80 <=? v) && (v <? 0xC0) then Some (v - 0x80) else None.

(** Decodes the first code point of [b]: the code point and the number of
    bytes it took. Strict: overlong forms, surrogates, values above
    [U+10FFFF], stray continuation bytes and truncated sequences are
    rejected. *)
Definition decode_cp (b : bytes) : option (N * nat) :=
  match b with
  | [] => None
  | b0 :: r =>
      let v := Byte.to_N b0 in
      if v <? 0x80 then Some (v, 1%nat)
      else if v <? 0xC0 then None
      else if v <? 0xE0 then
        match r with
        | b1 :: _ =>
            match cont b1 with
            | Some c1 =>
                let c := (v - 0xC0) * 64 + c1 in
                if 0x80 <=? c then Some (c, 2%nat) else None
            | None => None
            end
        | _ => None
        end
      else if v <? 0xF0 then
        match r with
        | b1 :: b2 :: _ =>
            match cont b1, cont b2 with
            | Some c1, Some c2 =>
                let c := (v - 0xE0) * 4096 + c1 * 64 + c2 in
                if (0x800 <=? c) && negb ((0xD800 <=? c) && (c <=? 0xDFFF))
                then Some (c, 3%nat) else None
            | _, _ => None
            end
        | _ => None
        end
      else if v <? 0xF8 then
        match r with
        | b1 :: b2 :: b3 :: _ =>
            match cont b1, cont b2, cont b3 with
            | Some c1, Some c2, Some c3 =>
                let c := (v - 0xF0) * 262144 + c1 * 4096 + c2 * 64 + c3 in
                if (0x10000 <=? c) && (c <? 0x110000)
                then Some (c, 4%nat) else None
            | _, _, _ => None
            end
        | _ => None
        end
      else None
  end.

(** [b.decode('utf-8')]; the fuel is the number of bytes left, and every
    code point consumes at least one. *)
Fixpoint decode_aux (fuel : nat) (b : bytes) : resultado str :=
  match b with
  | [] => Retorno []
  | _ :: _ =>
      match fuel with
      | O => Levanta UnicodeDecodeError
      | S fuel' =>
          match decode_cp b with
          | None => Levanta UnicodeDecodeError
          | Some (c, k) =>
              match decode_aux fuel' (drop k b) with
              | Retorno s => Retorno (c :: s)
              | r => r
              end
          end
      end
  end.

Definition bytes_decode (b : bytes) : resultado str :=
  decode_aux (length b) b.

(* ===================================================================== *)
(** ** [os.path] (POSIX flavour) *)
(* ===================================================================== *)

Definition barra : N := 47.  (* '/' *)
Definition ponto : N := 46.  (* '.' *)

(** [p.rfind(c)]: the index of the last [c] in [p], or [-1]. *)
Fixpoint rfind (p : str) (c : N) : Z :=
  match p with
  | [] => (-1)%Z
  | x :: r =>
      let i := rfind r c in
      if (0 <=? i)%Z then (i + 1)%Z
      else if x =? c then 0%Z else (-1)%Z
  end.

(** [os.path.basename(p)]: [p[p.rfind('/') + 1:]]. *)
Definition basename (p : str) : str :=
  drop (Z.to_nat (rfind p barra + 1)) p.

(** [s.endswith(suf)] and [s.startswith(pre)] *)
Definition endswith (s suf : str) : bool :=
  bool_decide (drop (length s - length suf) s = suf).

Definition startswith (s pre : str) : bool :=
  bool_decide (take (length pre) s = pre).

(** [os.path.join(a, b)] *)
Definition os_path_join (a b : str) : str :=
  if startswith b [barra] then b
  else if bool_decide (a = []) || endswith a [barra] then a ++ b
  else a ++ [barra] ++ b.

(** [os.path.splitext(p)]: the extension starts at the last dot of the
    last component, unless that component has only leading dots before
    it. *)
Definition os_path_splitext (p : str) : str * str :=
  let sepIndex := rfind p barra in
  let dotIndex := rfind p ponto in
  if (sepIndex <? dotIndex)%Z then
    let filenameIndex := (sepIndex + 1)%Z in
    if forallb (N.eqb ponto)
         (fatia p (Z.to_N filenameIndex) (Z.to_N dotIndex))
    then (p, [])
    else (take (Z.to_nat dotIndex) p, drop (Z.to_nat dotIndex) p)
  else (p, []).

(* ===================================================================== *)
(** ** The world: files, console, calls into zlib *)
(* ===================================================================== *)

(** A path names a regular file with its content, or a directory. *)
Inductive no : Type :=
| Arquivo (conteudo : bytes)
| Pasta.

#[export] Instance no_eqdec : EqDecision no.
Proof. solve_decision. Defined.

(** [(1 - comprimido/original) * 100], kept as its two operands; the
    float it evaluates to is [taxa_float], and the text printed for it is
    [percentual], both defined further down. *)
Record taxa_t : Type := Taxa { taxa_comprimido : N; taxa_original : N }.

(** The lines the two functions print, by their content. *)
Inductive mensagem : Type :=
| MsgEmpacotando (n : N)
| MsgNaoEncontrado (arquivo : str)
| MsgIncluido (arquivo : str) (tamanho : N)
| MsgComprimindo
| MsgSucesso
| MsgArquivoCriado (output : str)
| MsgTamanhoOriginal (n : N)
| MsgTamanhoComprimido (n : N)
| MsgTaxa (taxa : taxa_t)
| MsgErroEmpacotar (e : excecao)
| MsgDmdNaoEncontrado (arquivo_dmd : str)
| MsgFormatoInvalido
| MsgDescomprimindo
| MsgDesempacotando (n : N)
| MsgExtraido (nome : str) (tamanho : N)
| MsgExtraidosEm (pasta : str)
| MsgErroDesempacotar (e : excecao).

Inductive evento : Type :=
| Print (m : mensagem)
| ZlibCompress (level : N)
| ZlibDecompress.

Record mundo : Type := Mundo {
  disco : gmap str no;
  traco : list evento
}.

(** A computation over the world. *)
Definition M (A : Type) : Type := mundo -> resultado A * mundo.

#[export] Instance M_ret : MRet M := fun A a w => (Retorno a, w).

#[export] Instance M_bind : MBind M := fun A B f m w =>
  match m w with
  | (Retorno a, w') => f a w'
  | (Levanta e, w') => (Levanta e, w')
  | (Sai c, w') => (Sai c, w')
  end.

(** A pure outcome as a computation. *)
Definition elevar {A : Type} (r : resultado A) : M A := fun w => (r, w).

(** [sys.exit(c)] *)
Definition sys_exit {A : Type} (c : N) : M A := elevar (Sai c).

(** [try: corpo / except Exception as e: tratar(e)] *)
Definition try_except {A : Type} (corpo : M A) (tratar : excecao -> M A)
  : M A := fun w =>
  match corpo w with
  | (Levanta e, w') => tratar e w'
  | r => r
  end.

Definition registrar (ev : evento) : M unit := fun w =>
  (Retorno tt, {| disco := disco w; traco := traco w ++ [ev] |}).

Definition print (m : mensagem) : M unit := registrar (Print m).

(** [os.path.exists(p)] *)
Definition os_path_exists (p : str) : M bool := fun w =>
  (Retorno (match disco w !! p with Some _ => true | None => false end), w).

(** [with open(p, 'rb') as f: f.read()] *)
Definition ler (p : str) : M bytes := fun w =>
  match disco w !! p with
  | Some (Arquivo c) => (Retorno c, w)
  | Some Pasta => (Levanta IsADirectoryError, w)
  | None => (Levanta FileNotFoundError, w)
  end.

(** [with open(p, 'wb') as f: f.write(c)]: creates or replaces the file;
    refused when [p] is a directory. *)
Definition gravar (p : str) (c : bytes) : M unit := fun w =>
  match disco w !! p with
  | Some Pasta => (Levanta IsADirectoryError, w)
  | _ => (Retorno tt, {| disco := <[p := Arquivo c]> (disco w);
                         traco := traco w |})
  end.

(** [os.makedirs(p)] *)
Definition os_makedirs (p : str) : M unit := fun w =>
  match disco w !! p with
  | Some _ => (Levanta FileExistsError, w)
  | None => (Retorno tt, {| disco := <[p := Pasta]> (disco w);
                            traco := traco w |})
  end.

(** [zlib]: the compressor and its inverse, as an interface. [None] from
    [zlib_decompress] is [zlib.error]. *)
Class Zlib : Type := {
  zlib_compress : bytes -> N -> bytes;
  zlib_decompress : bytes -> option bytes;
  zlib_decompress_compress :
    forall d level, level <= 9 ->
      zlib_decompress (zlib_compress d level) = Some d
}.

(** [Z_BEST_COMPRESSION], the highest level zlib has. *)
Definition Z_BEST_COMPRESSION : N := 9.

(* ===================================================================== *)
(** ** [class Diamond] *)
(* ===================================================================== *)

Definition MAGIC_NUMBER : bytes := [x44; x4d; x44; x01].  (* b'DMD\x01' *)

(** [bytearray.append(n)]: [ValueError] unless [n] is in [range(256)]. *)
Definition bytearray_append (dados : bytes) (n : N) : resultado bytes :=
  if n <? 256 then Retorno (dados ++ [byte_of_N n]) else Levanta ValueError.

(** [taxa = (1 - tamanho_comprimido/tamanho_original) * 100] *)
Definition calcular_taxa (tamanho_comprimido tamanho_original : N)
  : resultado taxa_t :=
  if tamanho_original =? 0 then Levanta ZeroDivisionError
  else Retorno (Taxa tamanho_comprimido tamanho_original).

(** The path the archive is written to:
    [if not output.endswith('.dmd'): output += '.dmd']. *)
Definition nome_saida (output : str) : str :=
  if negb (endswith output (py ".dmd")) then output ++ py ".dmd"
  else output.

(** [nome_bytes] of [empacotar_comprimir]: the base name in UTF-8, cut to
    its first 255 bytes. *)
Definition nome_bytes_de (arquivo : str) : resultado bytes :=
  let nome := basename arquivo in
  match str_encode nome with
  | Retorno nome_bytes =>
      Retorno (if 255 <? len nome_bytes then fatia nome_bytes 0 255
               else nome_bytes)
  | r => r
  end.

(** The [for arquivo in arquivos] loop of [empacotar_comprimir], with the
    [bytearray] it extends. *)
Fixpoint empacotar_arquivos (arquivos : list str) (dados_empacotados : bytes)
  : M bytes :=
  match arquivos with
  | [] => mret dados_empacotados
  | arquivo :: resto =>
      existe ← os_path_exists arquivo;
      if negb existe then
        print (MsgNaoEncontrado arquivo);;
        empacotar_arquivos resto dados_empacotados
      else
        conteudo ← ler arquivo;
        nome_bytes ← elevar (nome_bytes_de arquivo);
        dados ← elevar (bytearray_append dados_empacotados (len nome_bytes));
        let dados := dados ++ nome_bytes in
        tamanho ← elevar (struct_pack_I (len conteudo));
        let dados := dados ++ tamanho in
        let dados := dados ++ conteudo in
        print (MsgIncluido arquivo (len conteudo));;
        empacotar_arquivos resto dados
  end.

(** The payload [dados_empacotados] as it is when the loop ends. *)
Definition montar_pacote (arquivos : list str) : M bytes :=
  let dados_empacotados := [] in
  cabecalho ← elevar (struct_pack_I (len arquivos));
  let dados_empacotados := dados_empacotados ++ cabecalho in
  print (MsgEmpacotando (len arquivos));;
  empacotar_arquivos arquivos dados_empacotados.

(** The [for i in range(num_arquivos)] loop of
    [descomprimir_desempacotar], with its cursor [pos]. *)
Fixpoint desempacotar_arquivos (dados : bytes) (pasta_destino : str)
    (restantes : nat) (pos : N) : M unit :=
  match restantes with
  | O => mret tt
  | S restantes' =>
      tamanho_nome ←
        elevar (match dados !! N.to_nat pos with
                | Some b => Retorno (Byte.to_N b)
                | None => Levanta IndexError
                end);
      let pos := pos + 1 in
      nome ← elevar (bytes_decode (fatia dados pos (pos + tamanho_nome)));
      let pos := pos + tamanho_nome in
      tamanho_conteudo ← elevar (struct_unpack_I (fatia dados pos (pos + 4)));
      let pos := pos + 4 in
      let conteudo := fatia dados pos (pos + tamanho_conteudo) in
      let pos := pos + tamanho_conteudo in
      let caminho_arquivo := os_path_join pasta_destino nome in
      gravar caminho_arquivo conteudo;;
      print (MsgExtraido nome tamanho_conteudo);;
      desempacotar_arquivos dados pasta_destino restantes' pos
  end.

(** The rest of [descomprimir_desempacotar] once the payload is
    decompressed and the destination is there: from [pos = 0] to the last
    [print]. *)
Definition desempacotar_dados (dados_descomprimidos : bytes)
    (pasta_destino : str) : M unit :=
  let pos := 0 in
  num_arquivos ←
    elevar (struct_unpack_I (fatia dados_descomprimidos pos (pos + 4)));
  let pos := pos + 4 in
  print (MsgDesempacotando num_arquivos);;
  desempacotar_arquivos dados_descomprimidos pasta_destino
    (N.to_nat num_arquivos) pos;;
  print MsgSucesso;;
  print (MsgExtraidosEm pasta_destino).

(** [pasta_destino] as [descomprimir_desempacotar] settles it: the
    caller's, or [os.path.splitext(arquivo_dmd)[0] + "_extraido"]. *)
Definition pasta_efetiva (arquivo_dmd : str) (pasta_destino : option str)
  : str :=
  match pasta_destino with
  | None => (os_path_splitext arquivo_dmd).1 ++ py "_extraido"
  | Some p => p
  end.

Section Diamond.
Context `{Zlib}.

(** [zlib.compress(dados, level=level)] *)
Definition comprimir (dados : bytes) (level : N) : M bytes := fun w =>
  (Retorno (zlib_compress dados level),
   {| disco := disco w; traco := traco w ++ [ZlibCompress level] |}).

(** [zlib.decompress(dados)] *)
Definition descomprimir (dados : bytes) : M bytes := fun w =>
  let w' := {| disco := disco w; traco := traco w ++ [ZlibDecompress] |} in
  match zlib_decompress dados with
  | Some d => (Retorno d, w')
  | None => (Levanta ZlibError, w')
  end.

(** [Diamond.empacotar_comprimir(arquivos, output)] *)
Definition empacotar_comprimir (arquivos : list str) (output : str)
  : M unit :=
  let output := nome_saida output in
  try_except
    (dados_empacotados ← montar_pacote arquivos;
     print MsgComprimindo;;
     dados_comprimidos ← comprimir dados_empacotados 9;
     gravar output (MAGIC_NUMBER ++ dados_comprimidos);;
     let tamanho_original := len dados_empacotados in
     let tamanho_comprimido := len dados_comprimidos in
     taxa ← elevar (calcular_taxa tamanho_comprimido tamanho_original);
     print MsgSucesso;;
     print (MsgArquivoCriado output);;
     print (MsgTamanhoOriginal tamanho_original);;
     print (MsgTamanhoComprimido tamanho_comprimido);;
     print (MsgTaxa taxa))
    (fun e => print (MsgErroEmpacotar e);; sys_exit 1).


(** [Diamond.descomprimir_desempacotar(arquivo_dmd, pasta_destino=None)] *)
Definition descomprimir_desempacotar (arquivo_dmd : str)
    (pasta_destino : option str) : M unit :=
  existe ← os_path_exists arquivo_dmd;
  if negb existe then
    print (MsgDmdNaoEncontrado arquivo_dmd);;
    sys_exit 1
  else
    try_except
      (f ← ler arquivo_dmd;
       let magic := fatia f 0 4 in
       (if bool_decide (magic ≠ MAGIC_NUMBER)
        then print MsgFormatoInvalido;; sys_exit 1
        else mret tt : M unit);;
       let dados_comprimidos := drop 4 f in
       print MsgDescomprimindo;;
       dados_descomprimidos ← descomprimir dados_comprimidos;
       let pasta_destino := pasta_efetiva arquivo_dmd pasta_destino in
       existe ← os_path_exists pasta_destino;
       (if negb existe then os_makedirs pasta_destino else mret tt : M unit);;
       desempacotar_dados dados_descomprimidos pasta_destino)
      (fun e => print (MsgErroDesempacotar e);; sys_exit 1).

End Diamond.

(* ===================================================================== *)
(** ** A stand-in for zlib, for closed examples *)
(* ===================================================================== *)

(** Framing only: the two header bytes of a zlib stream written at level
    9, then the data as it is. It implements the interface [Zlib], which is
    all the examples below need of a compressor. *)
Definition moldura_compress (d : bytes) (level : N) : bytes :=
  [x78; xda] ++ d.

Definition moldura_decompress (d : bytes) : option bytes :=
  match d with
  | x78 :: xda :: r => Some r
  | _ => None
  end.

#[export] Instance zlib_moldura : Zlib := {|
  zlib_compress := moldura_compress;
  zlib_decompress := moldura_decompress;
  zlib_decompress_compress := fun d level _ => eq_refl
|}.

(** The world before anything ran: a disk and an empty log. *)
Definition mundo_inicial (d : gmap str no) : mundo :=
  {| disco := d; traco := [] |}.

(** ASCII text as bytes. *)
Fixpoint ascii_bytes (s : string) : bytes :=
  match s with
  | EmptyString => []
  | String c r => byte_of_ascii c :: ascii_bytes r
  end.

(* ===================================================================== *)
(** ** Vocabulary of the statements *)
(* ===================================================================== *)

(** The world with more events logged. *)
Definition com_traco (w : mundo) (evs : list evento) : mundo :=
  {| disco := disco w; traco := traco w ++ evs |}.

(** The world with another disk. *)
Definition com_disco (w : mundo) (d : gmap str no) : mundo :=
  {| disco := d; traco := traco w |}.

(** The archive format as the specification words it: a fixed-width
    unsigned 32-bit integer, least significant byte first. *)
Definition u32 (n : N) : bytes :=
  [byte_of_N n; byte_of_N (n / 256);
   byte_of_N (n / 65536); byte_of_N (n / 16777216)].

(** An entry: [NameLength] (1 byte), [Name], [ContentLength] (4 bytes),
    [Content], with nothing between them. *)
Definition Entry (e : bytes * bytes) : bytes :=
  [byte_of_N (len e.1)] ++ e.1 ++ u32 (len e.2) ++ e.2.

(** The payload: [FileCount] (4 bytes), then the entries, concatenated. *)
Definition Payload (file_count : N) (entries : list (bytes * bytes)) : bytes :=
  u32 file_count ++ flat_map Entry entries.

(** [e] is what the packer embeds for the path [a] on the disk [d]: the
    encoded base name, cut to 255 bytes, and the content of the file, which
    fits the 4-byte length field. *)
Definition embutido (d : gmap str no) (a : str) (e : bytes * bytes) : Prop :=
  nome_bytes_de a = Retorno e.1 /\ d !! a = Some (Arquivo e.2)
  /\ len e.2 < 2 ^ 32.

(** The paths of [arquivos] that exist on [d], in the order given. *)
Definition existentes (d : gmap str no) (arquivos : list str) : list str :=
  filter (fun a => is_Some (d !! a)) arquivos.

(** The path ends with the suffix [.dmd]. *)
Definition tem_sufixo (output : str) : Prop :=
  exists p, output = p ++ py ".dmd".

(** The disk once the destination directory is there:
    [if not os.path.exists(pasta): os.makedirs(pasta)]. *)
Definition preparar (pasta : str) (d : gmap str no) : gmap str no :=
  match d !! pasta with
  | Some _ => d
  | None => <[pasta := Pasta]> d
  end.

(** The disk after the files [xs] (name, content) are written into
    [pasta], first to last. *)
Definition extrair (pasta : str) (d : gmap str no) (xs : list (str * bytes))
  : gmap str no :=
  foldl (fun d x => <[os_path_join pasta x.1 := Arquivo x.2]> d) d xs.

(** The lines the unpacking loop prints for [xs]. *)
Definition linhas_extraidas (xs : list (str * bytes)) : list evento :=
  map (fun x => Print (MsgExtraido x.1 (len x.2))) xs.

(** The entry [e] is well formed and holds the file [x]: its name field
    decodes to the name of [x], its content is that of [x], and both
    lengths fit their fields. *)
Definition entrada_de (e : bytes * bytes) (x : str * bytes) : Prop :=
  bytes_decode e.1 = Retorno x.1 /\ e.2 = x.2
  /\ len e.1 <= 255 /\ len e.2 < 2 ^ 32.

(** The path [a] names, on the disk [d], a regular file the packer can
    embed under its own name: its content fits the 4-byte length field,
    and its base name is not empty, has a UTF-8 encoding, and that
    encoding fits the 1-byte length field. *)
Definition embutivel (d : gmap str no) (a : str) : Prop :=
  match d !! a, str_encode (basename a) with
  | Some (Arquivo c), Retorno nb =>
      len c < 2 ^ 32 /\ len nb <= 255 /\ basename a <> []
  | _, _ => False
  end.

(** The content of the regular file at [a]. *)
Definition conteudo_em (d : gmap str no) (a : str) : bytes :=
  match d !! a with
  | Some (Arquivo c) => c
  | _ => []
  end.

(** The files the unpacker is to restore for [arquivos]: each base name
    with the content of its file. *)
Definition originais (d : gmap str no) (arquivos : list str)
  : list (str * bytes) :=
  map (fun a => (basename a, conteudo_em d a)) arquivos.

(** What the packer did to the disk: it wrote the archive [Some a] at
    [p], or wrote nothing. *)
Definition gravado (p : str) (escrita : option bytes) (d : gmap str no)
  : gmap str no :=
  match escrita with
  | Some a => <[p := Arquivo a]> d
  | None => d
  end.

(* ===================================================================== *)
(** ** Worked inputs *)
(* ===================================================================== *)

(** The two files of the specification's scenario: [a.txt] holding
    [hello] and [b.bin] holding the bytes [00 FF 10]. *)
Definition disco_exemplo : gmap str no :=
  <[py "a.txt" := Arquivo (ascii_bytes "hello")]>
    (<[py "b.bin" := Arquivo [x00; xff; x10]]> ∅).

(** A file that is not an archive. *)
Definition disco_zip : gmap str no :=
  <[py "velho.dmd" := Arquivo (ascii_bytes "PK-not-a-diamond")]> ∅.

(** Two files with one base name, in two directories. *)
Definition disco_homonimos : gmap str no :=
  <[py "a/x.txt" := Arquivo (ascii_bytes "one")]>
    (<[py "b/x.txt" := Arquivo (ascii_bytes "two")]> ∅).

(** A payload that declares one file [a] of five bytes and holds two. *)
Definition pacote_curto : bytes :=
  u32 1 ++ [byte_of_N 1] ++ ascii_bytes "a" ++ u32 5 ++ ascii_bytes "hi".

(** A base name of 128 times [U+00E9]: 256 bytes in UTF-8, two for each
    letter. *)
Definition nome_longo : str := repeat 233 128.

(** Its first 255 bytes: 127 whole letters and the first byte of the
    last one. *)
Definition nome_cortado : bytes := concat (repeat [xc3; xa9] 127) ++ [xc3].

Definition disco_nome_longo : gmap str no :=
  <[nome_longo := Arquivo (ascii_bytes "x")]> ∅.

(* ===================================================================== *)
(** ** [main] *)
(* ===================================================================== *)

(** What [parser.parse_args()] returned: [--ec] (one or more words, or
    absent), [--un], and [--output]. The parsing itself is argparse's. *)
Record Namespace : Type := {
  ec : option (list str);
  un : bool;
  output : option str
}.

(** The lines [main] prints itself: the help, the usage of the unpack
    mode, and the complaint that no file was given. *)
Inductive linha_main : Type :=
| Ajuda
| UsoDescomprimir
| NenhumArquivo.

(** [f.lower() == 'and']. In Unicode only [A a], [N n] and [D d] lower to
    [a], [n] and [d], and no code point lowers to nothing, so the words
    that lower to [and] are the eight spellings of it. *)
Definition eh_and (f : str) : bool :=
  match f with
  | [a; n; d] =>
      ((a =? 65) || (a =? 97)) && ((n =? 78) || (n =? 110))
      && ((d =? 68) || (d =? 100))
  | _ => false
  end.

(** [[f for f in args.ec if f.lower() != 'and']] *)
Definition sem_and (palavras : list str) : list str :=
  filter (fun f => eh_and f = false) palavras.

(** [args.output if args.output else "pacote"]: an absent or empty name
    gives the default. *)
Definition saida_de (args : Namespace) : str :=
  match output args with
  | Some (c :: r) => c :: r
  | _ => py "pacote"
  end.

Section Main.
Context `{Zlib}.

(** [main()] from the line after [parse_args]. The result holds the lines
    [main] printed itself, then the outcome and the world; on every path
    [main] either prints one line or calls one of the two functions,
    never both. *)
Definition main (sys_argv : list str) (args : Namespace) (w : mundo)
  : list linha_main * (resultado unit * mundo) :=
  if len sys_argv =? 1 then ([Ajuda], (Sai 0, w))
  else if un args then
    match ec args with
    | Some [arquivo_dmd] =>
        ([], descomprimir_desempacotar arquivo_dmd None w)
    | _ => ([UsoDescomprimir], (Sai 1, w))
    end
  else
    match ec args with
    | None | Some [] => ([Ajuda], (Retorno tt, w))
    | Some palavras =>
        let arquivos := sem_and palavras in
        match arquivos with
        | [] => ([NenhumArquivo], (Sai 1, w))
        | _ :: _ => ([], empacotar_comprimir arquivos (saida_de args) w)
        end
    end.

End Main.

(* ===================================================================== *)
(** ** More vocabulary *)
(* ===================================================================== *)

(** The path [a] does not stop the packer on the disk [d]: it is missing,
    or it is a regular file of fewer than [2^32] bytes whose base name
    has a UTF-8 encoding. *)
Definition empacotavel (d : gmap str no) (a : str) : Prop :=
  match d !! a with
  | None => True
  | Some Pasta => False
  | Some (Arquivo c) =>
      len c < 2 ^ 32
      /\ match str_encode (basename a) with
         | Retorno _ => True
         | _ => False
         end
  end.

(** The line the packing loop prints for the path [a]. *)
Definition linha_de (d : gmap str no) (a : str) : evento :=
  match d !! a with
  | Some (Arquivo c) => Print (MsgIncluido a (len c))
  | _ => Print (MsgNaoEncontrado a)
  end.

(** The content last written to the path [k] when the files [xs] are
    written into [pasta], if any of them lands there. *)
Fixpoint ultimo (pasta : str) (xs : list (str * bytes)) (k : str)
  : option bytes :=
  match xs with
  | [] => None
  | x :: r =>
      match ultimo pasta r k with
      | Some c => Some c
      | None =>
          if decide (os_path_join pasta x.1 = k) then Some x.2 else None
      end
  end.

(** The file at [arquivo_dmd] on the disk [d] is an archive that holds
    the files [xs] (name and content, in order): it starts with the magic
    number, and the rest decompresses to a payload of as many well-formed
    entries as it declares. *)
Definition arquivo_com `{Zlib} (d : gmap str no) (arquivo_dmd : str)
    (xs : list (str * bytes)) : Prop :=
  exists comprimidos entries,
    d !! arquivo_dmd = Some (Arquivo (MAGIC_NUMBER ++ comprimidos))
    /\ zlib_decompress comprimidos = Some (Payload (len entries) entries)
    /\ len entries < 2 ^ 32
    /\ Forall2 entrada_de entries xs.

(** The name has no ['/'] in it: it is what [os.path.basename] returns,
    and what the packer writes. *)
Definition nome_simples (x : str * bytes) : Prop := barra ∉ x.1.

(** An archive of three entries, two of them with one name, next to a
    file that is no part of it. *)
Definition disco_repetido : gmap str no :=
  <[py "r.dmd" :=
      Arquivo (MAGIC_NUMBER
               ++ moldura_compress
                    (Payload 3 [(ascii_bytes "n", ascii_bytes "um");
                                (ascii_bytes "m", ascii_bytes "x");
                                (ascii_bytes "n", ascii_bytes "dois")]) 9)]>
    (<[py "outro" := Arquivo (ascii_bytes "fica")]> ∅).

Definition arquivos_repetidos : list (str * bytes) :=
  [(py "n", ascii_bytes "um"); (py "m", ascii_bytes "x");
   (py "n", ascii_bytes "dois")].

(** An archive whose last entry is named by an absolute path, on a disk
    that has the directory of that path. *)
Definition disco_absoluto : gmap str no :=
  <[py "s.dmd" :=
      Arquivo (MAGIC_NUMBER
               ++ moldura_compress
                    (Payload 2 [(ascii_bytes "n", ascii_bytes "um");
                                (ascii_bytes "/tmp/fora", ascii_bytes "x")])
                    9)]>
    (<[py "/tmp" := Pasta]> ∅).

(* ===================================================================== *)
(** ** The entry of a file, in the words of the format *)
(* ===================================================================== *)

(** [nome] is the name of the file at the path [a]: it has no ['/'] in
    it, and it is the whole path or what follows a ['/'] of it, hence
    what follows the last one. *)
Definition nome_do_arquivo (a nome : str) : Prop :=
  (barra ∉ nome) /\ (a = nome \/ exists dir, a = dir ++ [barra] ++ nome).

(** The entry the format asks for the file at [a] on the disk [d]:
    [Name] is the UTF-8 encoding of the name of the file, cut to its first
    255 bytes when it is longer, and [Content] is what the file holds.
    This is worded after the format, not after [nome_bytes_de]. *)
Definition entrada_do_formato (d : gmap str no) (a : str)
    (e : bytes * bytes) : Prop :=
  exists nome utf8,
    nome_do_arquivo a nome
    /\ str_encode nome = Retorno utf8
    /\ e.1 = take 255 utf8
    /\ d !! a = Some (Arquivo e.2).

(* ===================================================================== *)
(** ** The files of the round trip *)
(* ===================================================================== *)

(** The path [a] names, on the disk [d], an existing regular file whose
    base name has a UTF-8 encoding of at most 255 bytes. *)
Definition arquivo_nomeado (d : gmap str no) (a : str) : Prop :=
  match d !! a, str_encode (basename a) with
  | Some (Arquivo _), Retorno nb => len nb <= 255
  | _, _ => False
  end.

(** The disk of the scenario, with a directory where the archive is to be
    written. *)
Definition disco_saida_pasta : gmap str no :=
  <[py "saida.dmd" := Pasta]> disco_exemplo.

(* ===================================================================== *)
(** ** The compression rate as a float, and its text *)
(* ===================================================================== *)

(** A Python int as a binary number: the mantissa is the int, the
    exponent is 0. *)
Definition SF_de_int (n : N) : spec_float :=
  match n with
  | N0 => S754_zero false
  | Npos p => S754_finite false p 0
  end.

(** [a / b] on two Python ints, [b] not zero: the binary64 float nearest
    to the quotient, ties to even, which is what CPython computes for the
    true division of two ints. (Where this is infinite, from the quotient
    [2^1024] on, CPython raises [OverflowError]; no byte string is that
    long.) *)
Definition int_truediv (a b : N) : float :=
  SF2Prim (SFdiv prec emax (SF_de_int a) (SF_de_int b)).

(** [taxa = (1 - tamanho_comprimido/tamanho_original) * 100], line 71:
    the division, the subtraction and the multiplication are binary64
    operations, each rounded to nearest. *)
Definition taxa_float (t : taxa_t) : float :=
  ((1 - int_truediv (taxa_comprimido t) (taxa_original t)) * 100)%float.

(** The integer nearest to [a / d], ties to even, for [0 <= a] and
    [0 < d]. *)
Definition arredonda (a d : Z) : Z :=
  let q := (a / d)%Z in
  let r := (a mod d)%Z in
  if (2 * r <? d)%Z then q
  else if (d <? 2 * r)%Z then (q + 1)%Z
  else if Z.even q then q else (q + 1)%Z.

(** The integer nearest to [m * 2^e * 10], ties to even: the tenths of
    the float [m * 2^e]. *)
Definition decimos (m : positive) (e : Z) : Z :=
  if (0 <=? e)%Z then (Z.pos m * 2 ^ e * 10)%Z
  else arredonda (Z.pos m * 10) (2 ^ (- e)).

(** A natural number in decimal. *)
Definition decimal (n : Z) : string :=
  NilZero.string_of_uint (N.to_uint (Z.to_N n)).

Definition sinal (s : bool) : string :=
  if s then "-"%string else ""%string.

(** [k] tenths with one digit after the point, behind the sign. *)
Definition com_uma_casa (s : bool) (k : Z) : string :=
  (sinal s ++ decimal (k / 10) ++ "." ++ decimal (k mod 10))%string.

(** [f"{x:.1f}"]: the decimal with one digit after the point that is
    nearest to the exact value of the float, ties to even; the sign is
    kept when the digits are all zero. *)
Definition formata_1f (x : float) : string :=
  match Prim2SF x with
  | S754_nan => "nan"%string
  | S754_infinity s => (sinal s ++ "inf")%string
  | S754_zero s => com_uma_casa s 0
  | S754_finite s m e => com_uma_casa s (decimos m e)
  end.

(** [f"{taxa:.1f}%"], the end of the last line of the summary (line 77),
    for the operands kept in [MsgTaxa]. *)
Definition percentual (t : taxa_t) : string :=
  (formata_1f (taxa_float t) ++ "%")%string.

(** The specification's percentage: [(1 - comprimido/original) * 100] as
    the fraction it is, [100 * (original - comprimido) / original], to one
    decimal place (nearest, ties to even; on the ties met below, rounding
    half up gives the same digits). *)
Definition percentual_exato (t : taxa_t) : string :=
  let c := Z.of_N (taxa_comprimido t) in
  let o := Z.of_N (taxa_original t) in
  if (c <=? o)%Z
  then (com_uma_casa false (arredonda (1000 * (o - c)) o) ++ "%")%string
  else (com_uma_casa true (arredonda (1000 * (c - o)) o) ++ "%")%string.

(** [k] is an integer nearest to [m * 2^e * 10]: the two differ by at
    most one half. *)
Definition decimo_mais_proximo (m : positive) (e : Z) (k : Z) : Prop :=
  (0 <= k)%Z
  /\ if (0 <=? e)%Z then k = (Z.pos m * 2 ^ e * 10)%Z
     else (Z.abs (2 * (Z.pos m * 10) - 2 * k * 2 ^ (- e)) <= 2 ^ (- e))%Z.

(* ===================================================================== *)
(** ** A zlib that knows one stream, for the example of the rate *)
(* ===================================================================== *)

(** The file [a.txt] of the example: 66 bytes. *)
Definition conteudo_sete : bytes :=
  ascii_bytes "abcdefgabcdefgabcdefgabcdefgabcdefgabcdefgabcdefgabcdefgabcdefgabc".

Definition disco_sete : gmap str no :=
  <[py "a.txt" := Arquivo conteudo_sete]> ∅.

(** The payload of that file alone: 80 bytes. *)
Definition pacote_sete : bytes :=
  Payload 1 [(ascii_bytes "a.txt", conteudo_sete)].

(** What [zlib.compress(pacote_sete, level=9)] returns with zlib 1.2.13:
    29 bytes. *)
Definition fluxo_sete : bytes :=
  [x78; xda; x63; x64; x60; x60; x60; x4d; xd4; x2b; xa9; x28; x71; x02;
   xb2; x12; x93; x92; x53; x52; xd3; xd2; x29; xa0; x00; xff; xae; x1b;
   xfa].

(** That stream for that payload, and framing for every other input. *)
Definition tabela_compress (d : bytes) (level : N) : bytes :=
  if decide (d = pacote_sete) then fluxo_sete else [x78; x01] ++ d.

Definition tabela_decompress (c : bytes) : option bytes :=
  if decide (c = fluxo_sete) then Some pacote_sete
  else match c with
       | x78 :: x01 :: r => Some r
       | _ => None
       end.

Definition tabela_decompress_compress (d : bytes) (level : N) :
  level <= 9 -> tabela_decompress (tabela_compress d level) = Some d.
Proof.
  intros _. unfold tabela_compress, tabela_decompress.
  destruct (decide (d = pacote_sete)) as [->|Hd].
  - now rewrite decide_True.
  - rewrite decide_False; [reflexivity|]. discriminate.
Qed.

Definition zlib_tabela : Zlib := {|
  zlib_compress := tabela_compress;
  zlib_decompress := tabela_decompress;
  zlib_decompress_compress := tabela_decompress_compress
|}.

(* ===================================================================== *)
(** * Properties *)
(* ===================================================================== *)

(** ** Bytes, lengths and slices *)

Lemma to_N_byte_of_N (n : N) : Byte.to_N (byte_of_N n) = n mod 256.
Proof.
  unfold byte_of_N.
  destruct (Byte.of_N (n mod 256)) as [b|] eqn:E.
  - now apply Byte.to_of_N in E.
  - apply Byte.of_N_None_iff in E. nlia.
Qed.

Lemma byte_of_N_to_N (b : byte) : byte_of_N (Byte.to_N b) = b.
Proof.
  unfold byte_of_N.
  pose proof (Byte.to_N_bounded b) as Hb.
  rewrite N.mod_small by lia.
  now rewrite Byte.of_to_N.
Qed.

Lemma len_app {A : Type} (l k : list A) : len (l ++ k) = len l + len k.
Proof. unfold len. rewrite length_app. lia. Qed.

Lemma to_nat_len {A : Type} (l : list A) : N.to_nat (len l) = length l.
Proof. unfold len. lia. Qed.

(** A slice that starts where [pre] ends and spans [l] is [l]. *)
Lemma fatia_app {A : Type} (pre l pos : list A) :
  fatia (pre ++ l ++ pos) (len pre) (len pre + len l) = l.
Proof.
  unfold fatia.
  replace (len pre + len l - len pre) with (len l) by lia.
  rewrite !to_nat_len, drop_app_length, take_app_length. reflexivity.
Qed.

(** ** [struct] *)

Lemma struct_pack_I_ok (n : N) :
  n < 2 ^ 32 -> exists b, struct_pack_I n = Retorno b.
Proof.
  intros Hn. unfold struct_pack_I.
  apply N.ltb_lt in Hn. rewrite Hn. eauto.
Qed.

Lemma struct_pack_I_inv (n : N) (b : bytes) :
  struct_pack_I n = Retorno b -> n < 2 ^ 32.
Proof.
  unfold struct_pack_I. now destruct (N.ltb_spec n (2 ^ 32)).
Qed.

Lemma struct_pack_I_length (n : N) (b : bytes) :
  struct_pack_I n = Retorno b -> length b = 4%nat.
Proof.
  unfold struct_pack_I. destruct (n <? 2 ^ 32); [|discriminate].
  intros [= <-]. reflexivity.
Qed.

Lemma struct_unpack_pack (n : N) (b : bytes) :
  struct_pack_I n = Retorno b -> struct_unpack_I b = Retorno n.
Proof.
  unfold struct_pack_I. destruct (N.ltb_spec n (2 ^ 32)) as [Hn|]; [|discriminate].
  change (2 ^ 32) with 4294967296 in Hn.
  intros [= <-]. unfold struct_unpack_I.
  rewrite !to_N_byte_of_N. f_equal. nlia.
Qed.

(** ** UTF-8 *)

(** Settles a comparison of the goal whose outcome the context fixes. *)
Ltac resolve_cmp :=
  match goal with
  | |- context [?a <? ?b] =>
      first [ replace (a <? b) with true by (symmetry; apply N.ltb_lt; lia)
            | replace (a <? b) with false by (symmetry; apply N.ltb_ge; lia) ]
  | |- context [?a <=? ?b] =>
      first [ replace (a <=? b) with true by (symmetry; apply N.leb_le; lia)
            | replace (a <=? b) with false by (symmetry; apply N.leb_gt; lia) ]
  end.

Ltac resolve_decode :=
  unfold decode_cp, cont; cbv beta iota zeta;
  rewrite !to_N_byte_of_N, !N.mod_small by lia;
  repeat (resolve_cmp; cbn [andb negb]; cbv iota beta);
  repeat f_equal; lia.

Lemma decode_cp_1 (c : N) (r : bytes) :
  c < 0x80 -> decode_cp (byte_of_N c :: r) = Some (c, 1%nat).
Proof. intros. resolve_decode. Qed.

Lemma decode_cp_2 (h x : N) (r : bytes) :
  2 <= h < 32 -> x < 64 ->
  decode_cp (byte_of_N (0xC0 + h) :: byte_of_N (0x80 + x) :: r)
  = Some (h * 64 + x, 2%nat).
Proof. intros. resolve_decode. Qed.

Lemma decode_cp_3 (h x y : N) (r : bytes) :
  h < 16 -> x < 64 -> y < 64 ->
  0x800 <= h * 4096 + x * 64 + y ->
  h * 4096 + x * 64 + y < 0xD800 \/ 0xDFFF < h * 4096 + x * 64 + y ->
  decode_cp (byte_of_N (0xE0 + h) :: byte_of_N (0x80 + x)
             :: byte_of_N (0x80 + y) :: r)
  = Some (h * 4096 + x * 64 + y, 3%nat).
Proof. intros ? ? ? ? [?|?]; resolve_decode. Qed.

Lemma decode_cp_4 (h x y z : N) (r : bytes) :
  h < 8 -> x < 64 -> y < 64 -> z < 64 ->
  0x10000 <= h * 262144 + x * 4096 + y * 64 + z < 0x110000 ->
  decode_cp (byte_of_N (0xF0 + h) :: byte_of_N (0x80 + x)
             :: byte_of_N (0x80 + y) :: byte_of_N (0x80 + z) :: r)
  = Some (h * 262144 + x * 4096 + y * 64 + z, 4%nat).
Proof. intros. resolve_decode. Qed.

Lemma encode_cp_length (c : N) (b : bytes) :
  encode_cp c = Some b -> (1 <= length b <= 4)%nat.
Proof.
  unfold encode_cp. intros Hb.
  repeat match type of Hb with
  | context [if ?t then _ else _] => destruct t
  end; inversion Hb; simpl; lia.
Qed.

Lemma decode_encode_cp (c : N) (b r : bytes) :
  encode_cp c = Some b -> decode_cp (b ++ r) = Some (c, length b).
Proof.
  unfold encode_cp. intros Hb.
  destruct (N.ltb_spec c 0x80); [|destruct (N.ltb_spec c 0x800);
    [|destruct (N.ltb_spec c 0x10000);
      [destruct (N.leb_spec 0xD800 c); [destruct (N.leb_spec c 0xDFFF)|]
      |destruct (N.ltb_spec c 0x110000)]]];
  simpl in Hb; try discriminate; injection Hb as <-; cbn [app length].
  - now apply decode_cp_1.
  - rewrite decode_cp_2 by nlia. f_equal. f_equal. nlia.
  - rewrite decode_cp_3 by nlia. f_equal. f_equal. nlia.
  - rewrite decode_cp_3 by nlia. f_equal. f_equal. nlia.
  - rewrite decode_cp_4 by nlia. f_equal. f_equal. nlia.
Qed.

Lemma str_encode_cons (c : N) (s : str) (b : bytes) :
  str_encode (c :: s) = Retorno b ->
  exists bc bs, encode_cp c = Some bc /\ str_encode s = Retorno bs
                /\ b = bc ++ bs.
Proof.
  simpl. destruct (encode_cp c) as [bc|]; [|discriminate].
  destruct (str_encode s) as [bs| |]; try discriminate.
  intros [= <-]. eauto.
Qed.

Lemma decode_aux_encode (s : str) :
  forall (b : bytes) (fuel : nat),
    str_encode s = Retorno b -> (length b <= fuel)%nat ->
    decode_aux fuel b = Retorno s.
Proof.
  induction s as [|c s IH]; intros b fuel Hb Hfuel.
  - injection Hb as <-. now destruct fuel.
  - apply str_encode_cons in Hb as (bc & bs & Hc & Hs & ->).
    pose proof (encode_cp_length _ _ Hc) as Hlen.
    rewrite length_app in Hfuel.
    destruct fuel as [|fuel]; [lia|].
    destruct bc as [|b0 bc]; [simpl in Hlen; lia|].
    change (decode_aux (S fuel) ((b0 :: bc) ++ bs))
      with (match decode_cp ((b0 :: bc) ++ bs) with
            | None => Levanta UnicodeDecodeError
            | Some (c, k) =>
                match decode_aux fuel (drop k ((b0 :: bc) ++ bs)) with
                | Retorno s => Retorno (c :: s)
                | r => r
                end
            end).
    rewrite (decode_encode_cp _ _ _ Hc), drop_app_length.
    rewrite (IH bs fuel Hs) by (simpl in Hfuel; lia).
    reflexivity.
Qed.

(** What [encode] wrote, [decode] reads back. *)
Lemma bytes_decode_encode (s : str) (b : bytes) :
  str_encode s = Retorno b -> bytes_decode b = Retorno s.
Proof. intros Hb. apply (decode_aux_encode s b _ Hb). lia. Qed.

(** ** [os.path] *)

Lemma rfind_ge (p : str) (c : N) : (-1 <= rfind p c)%Z.
Proof.
  induction p as [|x p IH]; simpl; [lia|].
  destruct (Z.leb_spec 0 (rfind p c)); [lia|].
  destruct (x =? c); lia.
Qed.

(** Nothing after the last [c] is a [c]. *)
Lemma rfind_drop (p : str) (c : N) :
  c ∉ drop (Z.to_nat (rfind p c + 1)) p.
Proof.
  induction p as [|x p IH]; simpl rfind.
  - simpl. apply not_elem_of_nil.
  - pose proof (rfind_ge p c) as Hge.
    destruct (Z.leb_spec 0 (rfind p c)) as [Hi|Hi].
    + replace (Z.to_nat (rfind p c + 1 + 1)) with (S (Z.to_nat (rfind p c + 1)))
        by lia.
      exact IH.
    + replace (rfind p c) with (-1)%Z in IH by lia. simpl in IH.
      destruct (N.eqb_spec x c) as [->|Hne]; simpl.
      * exact IH.
      * intros [?|?]%elem_of_cons; [congruence | now apply IH].
Qed.

(** A base name has no ['/'] in it. *)
Lemma basename_sem_barra (p : str) : barra ∉ basename p.
Proof. apply rfind_drop. Qed.

(** A path is some directory prefix followed by its base name. *)
Lemma basename_sufixo (p : str) : exists d, p = d ++ basename p.
Proof.
  exists (take (Z.to_nat (rfind p barra + 1)) p).
  unfold basename. now rewrite take_drop.
Qed.

(** [endswith] is what its name says. *)
Lemma endswith_spec (s suf : str) :
  endswith s suf = true <-> exists p, s = p ++ suf.
Proof.
  unfold endswith. rewrite bool_decide_eq_true. split.
  - intros Hd. exists (take (length s - length suf) s).
    pose proof (take_drop (length s - length suf) s) as Ht.
    rewrite Hd in Ht. now symmetry.
  - intros [p ->]. rewrite length_app.
    replace (length p + length suf - length suf)%nat with (length p) by lia.
    apply drop_app_length.
Qed.

(** Joining a fixed directory with names that do not start with ['/'] is
    injective. *)
Lemma os_path_join_inj (a b1 b2 : str) :
  barra ∉ b1 -> barra ∉ b2 ->
  os_path_join a b1 = os_path_join a b2 -> b1 = b2.
Proof.
  assert (Hs : forall b, barra ∉ b -> startswith b [barra] = false).
  { intros [|c b] Hb; unfold startswith; apply bool_decide_eq_false; simpl.
    - discriminate.
    - rewrite take_0. intros [= ->]. apply Hb. left. }
  intros H1 H2. unfold os_path_join. rewrite !Hs by assumption.
  destruct (bool_decide (a = []) || endswith a [barra]).
  - apply app_inv_head.
  - intros Heq. apply app_inv_head in Heq. now apply app_inv_head in Heq.
Qed.

(** ** Running a computation *)

Lemma com_traco_nil (w : mundo) : com_traco w [] = w.
Proof. destruct w. unfold com_traco. simpl. now rewrite app_nil_r. Qed.

Lemma com_traco_app (w : mundo) (e1 e2 : list evento) :
  com_traco (com_traco w e1) e2 = com_traco w (e1 ++ e2).
Proof. unfold com_traco. simpl. now rewrite app_assoc. Qed.

Lemma bind_run {A B : Type} (m : M A) (f : A -> M B) (w : mundo) :
  (m ≫= f) w =
  match m w with
  | (Retorno a, w') => f a w'
  | (Levanta e, w') => (Levanta e, w')
  | (Sai c, w') => (Sai c, w')
  end.
Proof. reflexivity. Qed.

Lemma bind_elevar {A B : Type} (r : resultado A) (f : A -> M B) (w : mundo) :
  (elevar r ≫= f) w =
  match r with
  | Retorno a => f a w
  | Levanta e => (Levanta e, w)
  | Sai c => (Sai c, w)
  end.
Proof. rewrite bind_run. unfold elevar. now destruct r. Qed.

Lemma bind_print {B : Type} (m : mensagem) (f : unit -> M B) (w : mundo) :
  (print m ≫= f) w = f tt (com_traco w [Print m]).
Proof. reflexivity. Qed.

(** ** The packing loop *)

(** One step of the loop on a path that is missing. *)
Lemma empacotar_arquivos_falta (arquivo : str) (resto : list str)
    (dados : bytes) (w : mundo) :
  disco w !! arquivo = None ->
  empacotar_arquivos (arquivo :: resto) dados w
  = empacotar_arquivos resto dados (com_traco w [Print (MsgNaoEncontrado arquivo)]).
Proof.
  intros Hd. simpl. rewrite bind_run. unfold os_path_exists. rewrite Hd.
  simpl. now rewrite bind_print.
Qed.

(** One step of the loop on a path that is a directory. *)
Lemma empacotar_arquivos_pasta (arquivo : str) (resto : list str)
    (dados : bytes) (w : mundo) :
  disco w !! arquivo = Some Pasta ->
  empacotar_arquivos (arquivo :: resto) dados w = (Levanta IsADirectoryError, w).
Proof.
  intros Hd. simpl. rewrite bind_run. unfold os_path_exists. rewrite Hd.
  simpl. rewrite bind_run. unfold ler. now rewrite Hd.
Qed.

(** One step of the loop on a regular file. *)
Lemma empacotar_arquivos_arquivo (arquivo : str) (resto : list str)
    (dados conteudo : bytes) (w : mundo) :
  disco w !! arquivo = Some (Arquivo conteudo) ->
  empacotar_arquivos (arquivo :: resto) dados w =
  match nome_bytes_de arquivo with
  | Retorno nome_bytes =>
      match bytearray_append dados (len nome_bytes) with
      | Retorno dados1 =>
          match struct_pack_I (len conteudo) with
          | Retorno tamanho =>
              empacotar_arquivos resto
                (((dados1 ++ nome_bytes) ++ tamanho) ++ conteudo)
                (com_traco w [Print (MsgIncluido arquivo (len conteudo))])
          | Levanta e => (Levanta e, w)
          | Sai c => (Sai c, w)
          end
      | Levanta e => (Levanta e, w)
      | Sai c => (Sai c, w)
      end
  | Levanta e => (Levanta e, w)
  | Sai c => (Sai c, w)
  end.
Proof.
  intros Hd. simpl. rewrite bind_run. unfold os_path_exists. rewrite Hd.
  simpl. rewrite bind_run. unfold ler. rewrite Hd.
  rewrite bind_elevar. destruct (nome_bytes_de arquivo); reflexivity.
Qed.

(** The loop reads the disk at the listed paths only, leaves it as it
    is, and logs the same lines in any two worlds that agree there. *)
Lemma empacotar_arquivos_agree (arquivos : list str) :
  forall (dados : bytes) (w1 w2 : mundo),
    (forall a, a ∈ arquivos -> disco w1 !! a = disco w2 !! a) ->
    exists r evs,
      empacotar_arquivos arquivos dados w1 = (r, com_traco w1 evs)
      /\ empacotar_arquivos arquivos dados w2 = (r, com_traco w2 evs).
Proof.
  induction arquivos as [|a resto IH]; intros dados w1 w2 Hag.
  - exists (Retorno dados), []. now rewrite !com_traco_nil.
  - assert (Ha : disco w1 !! a = disco w2 !! a) by (apply Hag; left).
    assert (Hr : forall x, x ∈ resto -> disco w1 !! x = disco w2 !! x)
      by (intros; apply Hag; now right).
    destruct (disco w2 !! a) as [[c|]|] eqn:E2.
    + rewrite !(empacotar_arquivos_arquivo _ _ _ c) by assumption.
      destruct (nome_bytes_de a) as [nb|e|k];
        [|exists (Levanta e), []; now rewrite !com_traco_nil
         |exists (Sai k), []; now rewrite !com_traco_nil].
      destruct (bytearray_append dados (len nb)) as [d1|e|k];
        [|exists (Levanta e), []; now rewrite !com_traco_nil
         |exists (Sai k), []; now rewrite !com_traco_nil].
      destruct (struct_pack_I (len c)) as [t|e|k];
        [|exists (Levanta e), []; now rewrite !com_traco_nil
         |exists (Sai k), []; now rewrite !com_traco_nil].
      destruct (IH (((d1 ++ nb) ++ t) ++ c)
                  (com_traco w1 [Print (MsgIncluido a (len c))])
                  (com_traco w2 [Print (MsgIncluido a (len c))]) Hr)
        as (r & evs & H1 & H2).
      exists r, ([Print (MsgIncluido a (len c))] ++ evs).
      now rewrite H1, H2, !com_traco_app.
    + rewrite !empacotar_arquivos_pasta by assumption.
      exists (Levanta IsADirectoryError), []. now rewrite !com_traco_nil.
    + rewrite !empacotar_arquivos_falta by assumption.
      destruct (IH dados
                  (com_traco w1 [Print (MsgNaoEncontrado a)])
                  (com_traco w2 [Print (MsgNaoEncontrado a)]) Hr)
        as (r & evs & H1 & H2).
      exists r, ([Print (MsgNaoEncontrado a)] ++ evs).
      now rewrite H1, H2, !com_traco_app.
Qed.

Lemma u32_pack (n : N) (b : bytes) : struct_pack_I n = Retorno b -> b = u32 n.
Proof.
  unfold struct_pack_I. destruct (n <? 2 ^ 32); [|discriminate].
  now intros [= <-].
Qed.

(** The name field always fits its length byte. *)
Lemma nome_bytes_de_len (a : str) (nb : bytes) :
  nome_bytes_de a = Retorno nb -> len nb <= 255.
Proof.
  unfold nome_bytes_de.
  destruct (str_encode (basename a)) as [b| |]; try discriminate.
  intros [= <-]. destruct (N.ltb_spec 255 (len b)); [|assumption].
  unfold fatia, len. rewrite length_take, length_drop. lia.
Qed.

(** On a name of at most 255 bytes the cut does nothing. *)
Lemma nome_bytes_de_curto (a : str) (b : bytes) :
  str_encode (basename a) = Retorno b -> len b <= 255 ->
  nome_bytes_de a = Retorno b.
Proof.
  intros Hb Hl. unfold nome_bytes_de. rewrite Hb.
  apply N.ltb_ge in Hl. now rewrite Hl.
Qed.

Lemma bytearray_append_ok (dados : bytes) (n : N) :
  n <= 255 -> bytearray_append dados n = Retorno (dados ++ [byte_of_N n]).
Proof.
  intros Hn. unfold bytearray_append.
  destruct (N.ltb_spec n 256); [reflexivity | lia].
Qed.

Lemma existentes_cons (d : gmap str no) (a : str) (resto : list str) :
  existentes d (a :: resto) =
  match d !! a with
  | Some _ => a :: existentes d resto
  | None => existentes d resto
  end.
Proof.
  unfold existentes. rewrite filter_cons.
  destruct (d !! a) eqn:E; case_decide as Hs; try reflexivity.
  - exfalso. apply Hs. eauto.
  - destruct Hs as [? [=]].
Qed.

(** When the loop returns, it has appended one [Entry] per existing path,
    in the order given, and nothing else. *)
Lemma empacotar_arquivos_retorno (arquivos : list str) :
  forall (dados : bytes) (w w' : mundo) (d' : bytes),
    empacotar_arquivos arquivos dados w = (Retorno d', w') ->
    exists entries,
      Forall2 (embutido (disco w)) (existentes (disco w) arquivos) entries
      /\ d' = dados ++ flat_map Entry entries.
Proof.
  induction arquivos as [|a resto IH]; intros dados w w' d' Hrun.
  - injection Hrun as <- <-. exists []. split; [constructor|].
    simpl. now rewrite app_nil_r.
  - rewrite existentes_cons. destruct (disco w !! a) as [[c|]|] eqn:Ea.
    + rewrite (empacotar_arquivos_arquivo _ _ _ c _ Ea) in Hrun.
      destruct (nome_bytes_de a) as [nb| |] eqn:Enb; try discriminate.
      rewrite (bytearray_append_ok _ _ (nome_bytes_de_len _ _ Enb)) in Hrun.
      destruct (struct_pack_I (len c)) as [t| |] eqn:Et; try discriminate.
      pose proof (struct_pack_I_inv _ _ Et) as Hlc.
      apply u32_pack in Et as ->.
      apply IH in Hrun as (entries & Hall & ->).
      exists ((nb, c) :: entries). split.
      * constructor; [now repeat split | exact Hall].
      * unfold Entry. simpl. now rewrite <- !app_assoc.
    + rewrite (empacotar_arquivos_pasta _ _ _ _ Ea) in Hrun. discriminate.
    + rewrite (empacotar_arquivos_falta _ _ _ _ Ea) in Hrun.
      now apply IH in Hrun.
Qed.

(** ** [montar_pacote] and [empacotar_comprimir] *)

Lemma montar_pacote_eq (arquivos : list str) (w : mundo) :
  montar_pacote arquivos w =
  match struct_pack_I (len arquivos) with
  | Retorno cabecalho =>
      empacotar_arquivos arquivos cabecalho
        (com_traco w [Print (MsgEmpacotando (len arquivos))])
  | Levanta e => (Levanta e, w)
  | Sai c => (Sai c, w)
  end.
Proof.
  unfold montar_pacote. rewrite bind_elevar.
  destruct (struct_pack_I (len arquivos)); reflexivity.
Qed.

(** Building the payload never touches the disk, and depends on it at
    the listed paths only. *)
Lemma montar_pacote_agree (arquivos : list str) (w1 w2 : mundo) :
  (forall a, a ∈ arquivos -> disco w1 !! a = disco w2 !! a) ->
  exists r evs,
    montar_pacote arquivos w1 = (r, com_traco w1 evs)
    /\ montar_pacote arquivos w2 = (r, com_traco w2 evs).
Proof.
  intros Hag. rewrite !montar_pacote_eq.
  destruct (struct_pack_I (len arquivos)) as [cab|e|k].
  - destruct (empacotar_arquivos_agree arquivos cab
                (com_traco w1 [Print (MsgEmpacotando (len arquivos))])
                (com_traco w2 [Print (MsgEmpacotando (len arquivos))]) Hag)
      as (r & evs & H1 & H2).
    exists r, ([Print (MsgEmpacotando (len arquivos))] ++ evs).
    now rewrite H1, H2, !com_traco_app.
  - exists (Levanta e), []. now rewrite !com_traco_nil.
  - exists (Sai k), []. now rewrite !com_traco_nil.
Qed.

Lemma montar_pacote_disco (arquivos : list str) (w w' : mundo)
    (r : resultado bytes) :
  montar_pacote arquivos w = (r, w') -> disco w' = disco w.
Proof.
  destruct (montar_pacote_agree arquivos w w) as (r' & evs & H1 & _); [done|].
  rewrite H1. now intros [= _ <-].
Qed.

(** The payload the packer builds, when it builds one. *)
Lemma montar_pacote_retorno (arquivos : list str) (w w' : mundo)
    (dados : bytes) :
  montar_pacote arquivos w = (Retorno dados, w') ->
  exists entries,
    Forall2 (embutido (disco w)) (existentes (disco w) arquivos) entries
    /\ dados = Payload (len arquivos) entries.
Proof.
  rewrite montar_pacote_eq.
  destruct (struct_pack_I (len arquivos)) as [cab| |] eqn:Ecab;
    try discriminate.
  apply u32_pack in Ecab as ->.
  intros (entries & Hall & ->)%empacotar_arquivos_retorno.
  now exists entries.
Qed.

Lemma len_u32 (n : N) : len (u32 n) = 4.
Proof. reflexivity. Qed.

Lemma len_Payload (n : N) (entries : list (bytes * bytes)) :
  4 <= len (Payload n entries).
Proof. unfold Payload. rewrite len_app, len_u32. lia. Qed.

Section Empacotar.
Context `{Zlib}.

(** [empacotar_comprimir], run symbolically: what it returns and the
    world it leaves, by the outcome of [montar_pacote] and by what the
    output path is. *)
Lemma empacotar_comprimir_eq (arquivos : list str) (output : str) (w : mundo) :
  empacotar_comprimir arquivos output w =
  match montar_pacote arquivos w with
  | (Retorno dados, w1) =>
      let comprimidos := zlib_compress dados 9 in
      let w2 := com_traco w1 [Print MsgComprimindo; ZlibCompress 9] in
      match disco w1 !! nome_saida output with
      | Some Pasta =>
          (Sai 1, com_traco w2 [Print (MsgErroEmpacotar IsADirectoryError)])
      | _ =>
          (Retorno tt,
           com_traco
             (com_disco w2
                (<[nome_saida output := Arquivo (MAGIC_NUMBER ++ comprimidos)]>
                   (disco w1)))
             [Print MsgSucesso;
              Print (MsgArquivoCriado (nome_saida output));
              Print (MsgTamanhoOriginal (len dados));
              Print (MsgTamanhoComprimido (len comprimidos));
              Print (MsgTaxa (Taxa (len comprimidos) (len dados)))])
      end
  | (Levanta e, w1) => (Sai 1, com_traco w1 [Print (MsgErroEmpacotar e)])
  | (Sai c, w1) => (Sai c, w1)
  end.
Proof.
  unfold empacotar_comprimir, try_except. rewrite bind_run.
  destruct (montar_pacote arquivos w) as [[dados|e|c] w1] eqn:Em;
    try reflexivity.
  assert (Htaxa : forall c,
    calcular_taxa c (len dados) = Retorno (Taxa c (len dados))).
  { apply montar_pacote_retorno in Em as (entries & _ & ->).
    pose proof (len_Payload (len arquivos) entries) as Hlen.
    intros c. unfold calcular_taxa.
    destruct (N.eqb_spec (len (Payload (len arquivos) entries)) 0);
      [lia | reflexivity]. }
  rewrite bind_print, bind_run. unfold comprimir. rewrite bind_run.
  unfold gravar. cbn [disco traco com_traco].
  destruct (disco w1 !! nome_saida output) as [[c|]|] eqn:Eo.
  - rewrite bind_elevar, Htaxa, !bind_print.
    unfold print, registrar, com_traco, com_disco. cbn [disco traco].
    now rewrite <- !app_assoc.
  - rewrite bind_print. unfold sys_exit, elevar, com_traco. cbn [disco traco].
    now rewrite <- !app_assoc.
  - rewrite bind_elevar, Htaxa, !bind_print.
    unfold print, registrar, com_traco, com_disco. cbn [disco traco].
    now rewrite <- !app_assoc.
Qed.

End Empacotar.

(** ** The unpacking loop *)

Lemma struct_unpack_u32 (n : N) : n < 2 ^ 32 -> struct_unpack_I (u32 n) = Retorno n.
Proof.
  intros Hn. apply struct_unpack_pack. unfold struct_pack_I.
  apply N.ltb_lt in Hn. now rewrite Hn.
Qed.

Ltac resolve_len :=
  rewrite ?len_app, ?len_u32; unfold len; cbn [length]; lia.

(** A slice of [dados] cut where a known piece lies. *)
Lemma fatia_em {A : Type} (dados pre l pos : list A) (a b : N) :
  dados = pre ++ l ++ pos -> a = len pre -> b = a + len l ->
  fatia dados a b = l.
Proof. intros -> -> ->. apply fatia_app. Qed.

(** On a buffer that holds [length entries] well-formed entries at the
    cursor, the loop writes each file and returns. *)
Lemma desempacotar_arquivos_entradas (pasta : str) (resto : bytes)
    (entries : list (bytes * bytes)) (xs : list (str * bytes)) :
  Forall2 entrada_de entries xs ->
  forall (pre : bytes) (w : mundo),
    (forall x, x ∈ xs -> disco w !! os_path_join pasta x.1 <> Some Pasta) ->
    desempacotar_arquivos (pre ++ flat_map Entry entries ++ resto) pasta
      (length entries) (len pre) w
    = (Retorno tt,
       com_traco (com_disco w (extrair pasta (disco w) xs))
         (linhas_extraidas xs)).
Proof.
  induction 1 as [|[nb c] [nome c'] entries xs (Hdec & Hc & Hnb & Hlc) Hall IH];
    intros pre w Hdir.
  - simpl. unfold com_traco, com_disco. simpl. rewrite app_nil_r.
    now destruct w.
  - cbn [fst snd] in Hdec, Hc, Hnb, Hlc. subst c'.
    set (cauda := flat_map Entry entries ++ resto).
    set (dados := pre ++ flat_map Entry ((nb, c) :: entries) ++ resto).
    assert (E0 : dados = pre ++ [byte_of_N (len nb)]
                           ++ (nb ++ u32 (len c) ++ c ++ cauda)).
    { unfold dados, cauda, Entry. simpl. now rewrite <- !app_assoc. }
    assert (E1 : dados = (pre ++ [byte_of_N (len nb)]) ++ nb
                           ++ (u32 (len c) ++ c ++ cauda)).
    { rewrite E0. now rewrite <- !app_assoc. }
    assert (E2 : dados = (pre ++ [byte_of_N (len nb)] ++ nb) ++ u32 (len c)
                           ++ (c ++ cauda)).
    { rewrite E0. now rewrite <- !app_assoc. }
    assert (E3 : dados = (pre ++ [byte_of_N (len nb)] ++ nb ++ u32 (len c))
                           ++ c ++ cauda).
    { rewrite E0. now rewrite <- !app_assoc. }
    assert (E4 : dados = (pre ++ Entry (nb, c)) ++ flat_map Entry entries
                           ++ resto).
    { rewrite E0. unfold cauda, Entry. cbn [fst snd].
      repeat (rewrite <- app_assoc; cbn [app]). reflexivity. }
    change (desempacotar_arquivos dados pasta (S (length entries)) (len pre) w
            = (Retorno tt,
               com_traco
                 (com_disco w (extrair pasta (disco w) ((nome, c) :: xs)))
                 (linhas_extraidas ((nome, c) :: xs)))).
    cbn [desempacotar_arquivos].
    assert (L0 : dados !! N.to_nat (len pre) = Some (byte_of_N (len nb))).
    { rewrite E0, to_nat_len, lookup_app_r by lia.
      now replace (length pre - length pre)%nat with 0%nat by lia. }
    rewrite bind_elevar, L0, to_N_byte_of_N.
    rewrite (N.mod_small (len nb) 256) by lia.
    rewrite (fatia_em dados _ nb _ (len pre + 1) (len pre + 1 + len nb) E1)
      by resolve_len.
    rewrite bind_elevar, Hdec.
    rewrite (fatia_em dados _ (u32 (len c)) _ (len pre + 1 + len nb)
               (len pre + 1 + len nb + 4) E2)
      by resolve_len.
    rewrite bind_elevar, struct_unpack_u32 by assumption.
    rewrite (fatia_em dados _ c _ (len pre + 1 + len nb + 4)
               (len pre + 1 + len nb + 4 + len c) E3)
      by resolve_len.
    rewrite bind_run. unfold gravar.
    pose proof (Hdir (nome, c) ltac:(left)) as Hd0. simpl in Hd0.
    assert (Hg : match disco w !! os_path_join pasta nome with
                 | Some Pasta => (Levanta IsADirectoryError, w)
                 | _ => (Retorno tt,
                         com_disco w (<[os_path_join pasta nome := Arquivo c]>
                                        (disco w)))
                 end
                 = (Retorno tt,
                    com_disco w (<[os_path_join pasta nome := Arquivo c]>
                                   (disco w)))).
    { destruct (disco w !! os_path_join pasta nome) as [[?|]|]; congruence. }
    unfold com_disco in Hg. rewrite Hg. rewrite bind_print.
    replace (len pre + 1 + len nb + 4 + len c) with (len (pre ++ Entry (nb, c)))
      by (unfold Entry; cbn [fst snd]; resolve_len).
    rewrite E4, IH.
    + unfold com_traco, com_disco. simpl. now rewrite <- app_assoc.
    + intros x Hx. simpl.
      destruct (decide (os_path_join pasta nome = os_path_join pasta x.1))
        as [->|Hne].
      * now rewrite lookup_insert_eq.
      * rewrite lookup_insert_ne by assumption. apply Hdir. now right.
Qed.

(** A payload that holds exactly the entries it declares: every file is
    written and the walk returns. *)
Lemma desempacotar_dados_entradas (pasta : str) (w : mundo)
    (entries : list (bytes * bytes)) (xs : list (str * bytes)) :
  len entries < 2 ^ 32 ->
  Forall2 entrada_de entries xs ->
  (forall x, x ∈ xs -> disco w !! os_path_join pasta x.1 <> Some Pasta) ->
  desempacotar_dados (Payload (len entries) entries) pasta w
  = (Retorno tt,
     com_traco (com_disco w (extrair pasta (disco w) xs))
       ([Print (MsgDesempacotando (len entries))]
        ++ linhas_extraidas xs
        ++ [Print MsgSucesso; Print (MsgExtraidosEm pasta)])).
Proof.
  intros Hn Hall Hdir. unfold desempacotar_dados.
  change (0 + 4) with 4.
  rewrite (fatia_em (Payload (len entries) entries) [] (u32 (len entries))
             (flat_map Entry entries) 0 4) by reflexivity.
  rewrite bind_elevar, struct_unpack_u32 by assumption.
  rewrite bind_print, bind_run.
  unfold len at 2. rewrite Nat2N.id.
  change (Payload (len entries) entries)
    with (u32 (len entries) ++ flat_map Entry entries).
  rewrite <- (app_nil_r (flat_map Entry entries)).
  change 4 with (len (u32 (len entries))) at 1.
  rewrite desempacotar_arquivos_entradas with (xs := xs);
    [|assumption|exact Hdir].
  rewrite !bind_print. unfold print, registrar, com_traco, com_disco.
  cbn [disco traco]. now rewrite <- !app_assoc.
Qed.

(** One turn of the unpacking loop on a whole entry whose lengths fit
    their fields: the name is decoded, the file written, and the cursor
    moves past the entry; only the decoding and the write can fail. *)
Lemma desempacotar_arquivos_passo (pasta : str) (pre cauda nb c : bytes)
    (n : nat) (w : mundo) :
  len nb <= 255 -> len c < 2 ^ 32 ->
  desempacotar_arquivos (pre ++ Entry (nb, c) ++ cauda) pasta (S n)
    (len pre) w
  = match bytes_decode nb with
    | Retorno nome =>
        match disco w !! os_path_join pasta nome with
        | Some Pasta => (Levanta IsADirectoryError, w)
        | _ =>
            desempacotar_arquivos (pre ++ Entry (nb, c) ++ cauda) pasta n
              (len (pre ++ Entry (nb, c)))
              (com_traco
                 (com_disco w
                    (<[os_path_join pasta nome := Arquivo c]> (disco w)))
                 [Print (MsgExtraido nome (len c))])
        end
    | Levanta e => (Levanta e, w)
    | Sai k => (Sai k, w)
    end.
Proof.
  intros Hnb Hlc.
  set (dados := pre ++ Entry (nb, c) ++ cauda).
  assert (E0 : dados = pre ++ [byte_of_N (len nb)]
                         ++ (nb ++ u32 (len c) ++ c ++ cauda)).
  { unfold dados, Entry. cbn [fst snd].
    repeat (rewrite <- app_assoc; cbn [app]). reflexivity. }
  assert (E1 : dados = (pre ++ [byte_of_N (len nb)]) ++ nb
                         ++ (u32 (len c) ++ c ++ cauda)).
  { rewrite E0. now rewrite <- !app_assoc. }
  assert (E2 : dados = (pre ++ [byte_of_N (len nb)] ++ nb) ++ u32 (len c)
                         ++ (c ++ cauda)).
  { rewrite E0. now rewrite <- !app_assoc. }
  assert (E3 : dados = (pre ++ [byte_of_N (len nb)] ++ nb ++ u32 (len c))
                         ++ c ++ cauda).
  { rewrite E0. now rewrite <- !app_assoc. }
  cbn [desempacotar_arquivos].
  assert (L0 : dados !! N.to_nat (len pre) = Some (byte_of_N (len nb))).
  { rewrite E0, to_nat_len, lookup_app_r by lia.
    now replace (length pre - length pre)%nat with 0%nat by lia. }
  rewrite bind_elevar, L0, to_N_byte_of_N.
  rewrite (N.mod_small (len nb) 256) by lia.
  rewrite (fatia_em dados _ nb _ (len pre + 1) (len pre + 1 + len nb) E1)
    by resolve_len.
  rewrite bind_elevar. destruct (bytes_decode nb) as [nome|e|k];
    try reflexivity.
  rewrite (fatia_em dados _ (u32 (len c)) _ (len pre + 1 + len nb)
             (len pre + 1 + len nb + 4) E2)
    by resolve_len.
  rewrite bind_elevar, struct_unpack_u32 by assumption.
  rewrite (fatia_em dados _ c _ (len pre + 1 + len nb + 4)
             (len pre + 1 + len nb + 4 + len c) E3)
    by resolve_len.
  rewrite bind_run. unfold gravar.
  replace (len (pre ++ Entry (nb, c))) with (len pre + 1 + len nb + 4 + len c)
    by (unfold Entry; cbn [fst snd]; resolve_len).
  destruct (disco w !! os_path_join pasta nome) as [[?|]|];
    try reflexivity; now rewrite bind_print.
Qed.

(** When the loop returns on a buffer that holds [length entries]
    well-formed entries at the cursor, it has written each file, first to
    last, and printed one line for each. *)
Lemma desempacotar_arquivos_retorno (pasta : str) (resto : bytes)
    (entries : list (bytes * bytes)) (xs : list (str * bytes)) :
  Forall2 entrada_de entries xs ->
  forall (pre : bytes) (w w' : mundo),
    desempacotar_arquivos (pre ++ flat_map Entry entries ++ resto) pasta
      (length entries) (len pre) w
    = (Retorno tt, w') ->
    w' = com_traco (com_disco w (extrair pasta (disco w) xs))
           (linhas_extraidas xs).
Proof.
  induction 1 as [|[nb c] [nome c'] entries xs (Hdec & Hc & Hnb & Hlc) Hall IH];
    intros pre w w' Hrun.
  - simpl in Hrun. injection Hrun as <-.
    unfold com_traco, com_disco. simpl. rewrite app_nil_r. now destruct w.
  - cbn [fst snd] in Hdec, Hc, Hnb, Hlc. subst c'.
    cbn [flat_map length] in Hrun. rewrite <- app_assoc in Hrun.
    rewrite (desempacotar_arquivos_passo pasta pre _ nb c _ w Hnb Hlc) in Hrun.
    rewrite Hdec in Hrun.
    rewrite (app_assoc pre (Entry (nb, c))) in Hrun.
    destruct (disco w !! os_path_join pasta nome) as [[?|]|];
      try discriminate;
      apply IH in Hrun; subst w'; unfold com_traco, com_disco; simpl;
      now rewrite <- app_assoc.
Qed.

(** When the walk of a payload that holds exactly the entries it declares
    returns, every file was written, in order. *)
Lemma desempacotar_dados_retorno (pasta : str) (w w' : mundo)
    (entries : list (bytes * bytes)) (xs : list (str * bytes)) :
  len entries < 2 ^ 32 ->
  Forall2 entrada_de entries xs ->
  desempacotar_dados (Payload (len entries) entries) pasta w
  = (Retorno tt, w') ->
  w' = com_traco (com_disco w (extrair pasta (disco w) xs))
         ([Print (MsgDesempacotando (len entries))]
          ++ linhas_extraidas xs
          ++ [Print MsgSucesso; Print (MsgExtraidosEm pasta)]).
Proof.
  intros Hn Hall. unfold desempacotar_dados.
  change (0 + 4) with 4.
  rewrite (fatia_em (Payload (len entries) entries) [] (u32 (len entries))
             (flat_map Entry entries) 0 4) by reflexivity.
  rewrite bind_elevar, struct_unpack_u32 by assumption.
  rewrite bind_print, bind_run.
  unfold len at 2. rewrite Nat2N.id.
  change (Payload (len entries) entries)
    with (u32 (len entries) ++ flat_map Entry entries).
  rewrite <- (app_nil_r (flat_map Entry entries)).
  change 4 with (len (u32 (len entries))) at 1.
  match goal with
  | |- context [desempacotar_arquivos ?d ?p ?n ?q ?v] =>
      destruct (desempacotar_arquivos d p n q v) as [[[]|e|k] w1] eqn:Hrun
  end; try discriminate.
  apply (desempacotar_arquivos_retorno _ _ _ _ Hall) in Hrun. subst w1.
  rewrite !bind_print. intros [= <-].
  unfold com_traco, com_disco. cbn [disco traco].
  now rewrite <- !app_assoc.
Qed.

(** ** [descomprimir_desempacotar] *)

Lemma bind_ret {A B : Type} (a : A) (f : A -> M B) (w : mundo) :
  (mret a ≫= f) w = f a w.
Proof. reflexivity. Qed.

Lemma preparar_run {B : Type} (pasta : str) (f : unit -> M B) (w : mundo) :
  (os_path_exists pasta ≫= fun existe =>
     (if negb existe then os_makedirs pasta else mret tt : M unit) ≫= f) w
  = f tt (com_disco w (preparar pasta (disco w))).
Proof.
  rewrite bind_run. unfold os_path_exists, preparar, com_disco.
  destruct (disco w !! pasta) as [n|] eqn:E; cbn [negb].
  - rewrite bind_ret. now destruct w.
  - rewrite bind_run. unfold os_makedirs. now rewrite E.
Qed.

Section Desempacotar.
Context `{Zlib}.

(** A file that does not start with the magic number: the format error,
    exit status 1, and nothing else happens. *)
Lemma descomprimir_desempacotar_magic (arquivo_dmd : str)
    (pasta_destino : option str) (w : mundo) (f : bytes) :
  disco w !! arquivo_dmd = Some (Arquivo f) ->
  take 4 f <> MAGIC_NUMBER ->
  descomprimir_desempacotar arquivo_dmd pasta_destino w
  = (Sai 1, com_traco w [Print MsgFormatoInvalido]).
Proof.
  intros Hd Hmagic. unfold descomprimir_desempacotar.
  rewrite bind_run. unfold os_path_exists. rewrite Hd. cbn [negb].
  unfold try_except. rewrite bind_run. unfold ler. rewrite Hd.
  rewrite bind_run.
  change (fatia f 0 4) with (take 4 f).
  rewrite bool_decide_eq_true_2 by assumption.
  now rewrite bind_print.
Qed.

(** What [except Exception] makes of an outcome of the [try] body. *)
Lemma try_except_run {A : Type} (corpo : M A) (tratar : excecao -> M A)
    (w : mundo) :
  try_except corpo tratar w =
  match corpo w with
  | (Levanta e, w') => tratar e w'
  | r => r
  end.
Proof. reflexivity. Qed.

(** An archive with the magic number whose rest decompresses: the
    destination is prepared and the payload is walked; an exception of
    the walk becomes the error line and exit status 1. *)
Lemma descomprimir_desempacotar_eq (arquivo_dmd : str)
    (pasta_destino : option str) (w : mundo) (comprimidos dados : bytes) :
  let pasta := pasta_efetiva arquivo_dmd pasta_destino in
  disco w !! arquivo_dmd = Some (Arquivo (MAGIC_NUMBER ++ comprimidos)) ->
  zlib_decompress comprimidos = Some dados ->
  descomprimir_desempacotar arquivo_dmd pasta_destino w
  = match desempacotar_dados dados pasta
            (com_disco (com_traco w [Print MsgDescomprimindo; ZlibDecompress])
               (preparar pasta (disco w))) with
    | (Levanta e, w') => (Sai 1, com_traco w' [Print (MsgErroDesempacotar e)])
    | r => r
    end.
Proof.
  intros pasta Hd Hz. unfold descomprimir_desempacotar.
  rewrite bind_run. unfold os_path_exists at 1. rewrite Hd. cbn [negb].
  rewrite try_except_run, bind_run. unfold ler. rewrite Hd.
  change (fatia (MAGIC_NUMBER ++ comprimidos) 0 4) with MAGIC_NUMBER.
  rewrite bool_decide_eq_false_2 by (intros Hne; now apply Hne).
  rewrite bind_ret, bind_print, bind_run.
  change (drop 4 (MAGIC_NUMBER ++ comprimidos)) with comprimidos.
  unfold descomprimir. rewrite Hz.
  fold pasta. rewrite preparar_run.
  unfold com_disco, com_traco. cbn [disco traco]. rewrite <- app_assoc.
  cbn [app].
  destruct (desempacotar_dados dados pasta _) as [[?|e|c] w'];
    try reflexivity.
Qed.

(** When the unpacker returns on an archive that holds well-formed
    entries, as many as it declares, it has prepared the destination and
    written every file, in order. *)
Lemma descomprimir_desempacotar_retorno (arquivo_dmd : str)
    (pasta_destino : option str) (w w' : mundo) (comprimidos : bytes)
    (entries : list (bytes * bytes)) (xs : list (str * bytes)) :
  let pasta := pasta_efetiva arquivo_dmd pasta_destino in
  disco w !! arquivo_dmd = Some (Arquivo (MAGIC_NUMBER ++ comprimidos)) ->
  zlib_decompress comprimidos = Some (Payload (len entries) entries) ->
  len entries < 2 ^ 32 ->
  Forall2 entrada_de entries xs ->
  descomprimir_desempacotar arquivo_dmd pasta_destino w = (Retorno tt, w') ->
  w' = com_traco (com_disco w (extrair pasta (preparar pasta (disco w)) xs))
         ([Print MsgDescomprimindo; ZlibDecompress;
           Print (MsgDesempacotando (len xs))]
          ++ linhas_extraidas xs
          ++ [Print MsgSucesso; Print (MsgExtraidosEm pasta)]).
Proof.
  intros pasta Hd Hz Hn Hall.
  rewrite (descomprimir_desempacotar_eq _ _ _ comprimidos _ Hd Hz).
  fold pasta.
  match goal with
  | |- context [desempacotar_dados ?d ?p ?v] =>
      destruct (desempacotar_dados d p v) as [[[]|e|k] w1] eqn:Hrun
  end; try discriminate.
  intros [= <-].
  apply (desempacotar_dados_retorno _ _ _ _ xs Hn Hall) in Hrun. subst w1.
  assert (Hlen : len entries = len xs)
    by (unfold len; now rewrite (Forall2_length _ _ _ Hall)).
  rewrite Hlen. unfold com_traco, com_disco. cbn [disco traco].
  now rewrite <- !app_assoc.
Qed.

End Desempacotar.

(** ** From packing to unpacking *)

Lemma embutivel_inv (d : gmap str no) (a : str) :
  embutivel d a ->
  exists c nb, d !! a = Some (Arquivo c) /\ str_encode (basename a) = Retorno nb
               /\ len c < 2 ^ 32 /\ len nb <= 255 /\ basename a <> [].
Proof.
  unfold embutivel. destruct (d !! a) as [[c|]|]; try done.
  destruct (str_encode (basename a)) as [nb| |]; try done.
  intros (? & ? & ?). now exists c, nb.
Qed.

(** The loop returns when every listed path can be embedded. *)
Lemma empacotar_arquivos_total (arquivos : list str) :
  forall (dados : bytes) (w : mundo),
    Forall (embutivel (disco w)) arquivos ->
    exists d' w', empacotar_arquivos arquivos dados w = (Retorno d', w').
Proof.
  induction arquivos as [|a resto IH]; intros dados w Hall.
  - simpl. eauto.
  - apply Forall_cons in Hall as [Ha Hall].
    apply embutivel_inv in Ha as (c & nb & Hd & Hnb & Hc & Hl & _).
    rewrite (empacotar_arquivos_arquivo _ _ _ c _ Hd).
    rewrite (nome_bytes_de_curto _ _ Hnb Hl), bytearray_append_ok by assumption.
    destruct (struct_pack_I_ok _ Hc) as [t ->].
    apply IH. exact Hall.
Qed.

Lemma existentes_todos (d : gmap str no) (arquivos : list str) :
  Forall (embutivel d) arquivos -> existentes d arquivos = arquivos.
Proof.
  induction 1 as [|a resto Ha _ IH]; [reflexivity|].
  rewrite existentes_cons.
  apply embutivel_inv in Ha as (c & _ & -> & _). now rewrite IH.
Qed.

(** What the packer embeds for paths that can be embedded is what the
    unpacker is to restore. *)
Lemma entradas_originais (d : gmap str no) (arquivos : list str)
    (entries : list (bytes * bytes)) :
  Forall (embutivel d) arquivos ->
  Forall2 (embutido d) arquivos entries ->
  Forall2 entrada_de entries (originais d arquivos).
Proof.
  intros Hall H2. revert Hall.
  induction H2 as [|a e arquivos entries (Hn & Hc & _) _ IH]; intros Hall.
  - constructor.
  - apply Forall_cons in Hall as [Ha Hall].
    apply embutivel_inv in Ha as (c & nb & Hd & Hnb & Hlc & Hl & _).
    simpl. constructor; [|now apply IH].
    rewrite (nome_bytes_de_curto _ _ Hnb Hl) in Hn. injection Hn as Hn.
    rewrite Hd in Hc. injection Hc as Hc.
    unfold entrada_de, conteudo_em. rewrite Hd. cbn [fst snd].
    rewrite <- Hn, <- Hc. repeat split; try assumption.
    now apply bytes_decode_encode.
Qed.

(** A non-empty name without ['/'] joined to [pasta] is not [pasta]. *)
Lemma os_path_join_ne (pasta nome : str) :
  nome <> [] -> barra ∉ nome -> os_path_join pasta nome <> pasta.
Proof.
  intros Hne Hb. unfold os_path_join.
  assert (Hs : startswith nome [barra] = false).
  { destruct nome as [|c nome]; [done|].
    unfold startswith. apply bool_decide_eq_false. simpl. rewrite take_0.
    intros [= ->]. apply Hb. left. }
  rewrite Hs.
  destruct (bool_decide (pasta = []) || endswith pasta [barra]);
    intros Heq; apply (f_equal length) in Heq;
    rewrite ?length_app in Heq; simpl in Heq;
    destruct nome; simpl in Heq; try done; lia.
Qed.

(** Writing files whose paths differ from [k] leaves [k] as it was. *)
Lemma extrair_lookup_ne (pasta : str) (xs : list (str * bytes)) :
  forall (d : gmap str no) (k : str),
    Forall (fun x => os_path_join pasta x.1 <> k) xs ->
    extrair pasta d xs !! k = d !! k.
Proof.
  induction xs as [|x xs IH]; intros d k Hall; [reflexivity|].
  apply Forall_cons in Hall as [Hx Hall]. simpl.
  rewrite IH by assumption. now rewrite lookup_insert_ne.
Qed.

(** After the files are written, a path holds the content of the last
    file written to it. *)
Lemma extrair_lookup_ultimo (pasta : str) (xs : list (str * bytes)) :
  forall (d : gmap str no) (i : nat) (x : str * bytes),
    xs !! i = Some x ->
    (forall j y, (i < j)%nat -> xs !! j = Some y ->
       os_path_join pasta y.1 <> os_path_join pasta x.1) ->
    extrair pasta d xs !! os_path_join pasta x.1 = Some (Arquivo x.2).
Proof.
  induction xs as [|x0 xs IH]; intros d i x Hi Hlast; [done|].
  destruct i as [|i]; simpl in Hi |- *.
  - injection Hi as ->. rewrite extrair_lookup_ne.
    + apply lookup_insert_eq.
    + apply Forall_forall. intros y Hy.
      apply list_elem_of_lookup in Hy as [j Hj].
      apply (Hlast (S j)); [lia | exact Hj].
  - apply (IH _ i); [exact Hi|].
    intros j y Hij Hj. apply (Hlast (S j)); [lia | exact Hj].
Qed.

Lemma arquivo_nomeado_inv (d : gmap str no) (a : str) :
  arquivo_nomeado d a ->
  exists c nb, d !! a = Some (Arquivo c)
               /\ str_encode (basename a) = Retorno nb /\ len nb <= 255.
Proof.
  unfold arquivo_nomeado. destruct (d !! a) as [[c|]|]; try done.
  destruct (str_encode (basename a)) as [nb| |]; try done.
  intros ?. now exists c, nb.
Qed.

Lemma existentes_nomeados (d : gmap str no) (arquivos : list str) :
  Forall (arquivo_nomeado d) arquivos -> existentes d arquivos = arquivos.
Proof.
  induction 1 as [|a resto Ha _ IH]; [reflexivity|].
  rewrite existentes_cons.
  apply arquivo_nomeado_inv in Ha as (c & _ & -> & _). now rewrite IH.
Qed.

(** What the packer embeds for files with short names is what the
    unpacker is to restore: each name field decodes to the base name. *)
Lemma entradas_nomeadas (d : gmap str no) (arquivos : list str)
    (entries : list (bytes * bytes)) :
  Forall (arquivo_nomeado d) arquivos ->
  Forall2 (embutido d) arquivos entries ->
  Forall2 entrada_de entries (originais d arquivos).
Proof.
  intros Hall H2. revert Hall.
  induction H2 as [|a e arquivos entries (Hn & Hc & Hlc) _ IH]; intros Hall.
  - constructor.
  - apply Forall_cons in Hall as [Ha Hall].
    apply arquivo_nomeado_inv in Ha as (c & nb & Hd & Hnb & Hl).
    simpl. constructor; [|now apply IH].
    rewrite (nome_bytes_de_curto _ _ Hnb Hl) in Hn. injection Hn as Hn.
    rewrite Hd in Hc. injection Hc as Hc.
    unfold entrada_de, conteudo_em. rewrite Hd. cbn [fst snd].
    rewrite <- Hn, <- Hc. repeat split; try assumption.
    + now apply bytes_decode_encode.
    + now rewrite Hc.
Qed.

Section VaiEVolta.
Context `{Zlib}.

(** Packing paths that can all be embedded returns, and writes the
    archive of their entries. *)
Lemma empacotar_comprimir_total (arquivos : list str) (output : str)
    (w : mundo) :
  len arquivos < 2 ^ 32 ->
  Forall (embutivel (disco w)) arquivos ->
  disco w !! nome_saida output <> Some Pasta ->
  exists entries evs,
    Forall2 (embutido (disco w)) arquivos entries
    /\ empacotar_comprimir arquivos output w
       = (Retorno tt,
          com_traco
            (com_disco w
               (<[nome_saida output :=
                    Arquivo (MAGIC_NUMBER
                             ++ zlib_compress (Payload (len arquivos) entries) 9)]>
                  (disco w)))
            evs).
Proof.
  intros Hn Hall Hout.
  destruct (montar_pacote_agree arquivos w w) as (r & evs & Hm & _); [done|].
  assert (Hr : exists dados, r = Retorno dados).
  { pose proof Hm as Hm'. rewrite montar_pacote_eq in Hm'.
    destruct (struct_pack_I_ok _ Hn) as [cab Hcab]. rewrite Hcab in Hm'.
    destruct (empacotar_arquivos_total arquivos cab
                (com_traco w [Print (MsgEmpacotando (len arquivos))]) Hall)
      as (d' & w' & Hl).
    rewrite Hl in Hm'. injection Hm' as <- _. eauto. }
  destruct Hr as [dados ->].
  destruct (montar_pacote_retorno _ _ _ _ Hm) as (entries & Hemb & ->).
  rewrite existentes_todos in Hemb by assumption.
  exists entries. eexists. split; [exact Hemb|].
  rewrite empacotar_comprimir_eq, Hm. cbv zeta.
  change (disco (com_traco w evs)) with (disco w).
  destruct (disco w !! nome_saida output) as [[c|]|] eqn:Eo; try done;
    unfold com_traco, com_disco; cbn [disco traco];
    rewrite <- !app_assoc; reflexivity.
Qed.

(** Packing files that can be embedded and unpacking the archive: both
    calls return, and the destination holds the files written first to
    last. *)
Lemma vai_e_volta (arquivos : list str) (output : str)
    (pasta_destino : option str) (w : mundo) :
  let saida := nome_saida output in
  let pasta := pasta_efetiva saida pasta_destino in
  len arquivos < 2 ^ 32 ->
  Forall (embutivel (disco w)) arquivos ->
  disco w !! saida <> Some Pasta ->
  Forall (fun a => disco w !! os_path_join pasta (basename a) <> Some Pasta)
    arquivos ->
  exists w1 w2,
    empacotar_comprimir arquivos output w = (Retorno tt, w1)
    /\ descomprimir_desempacotar saida pasta_destino w1 = (Retorno tt, w2)
    /\ disco w2 = extrair pasta (preparar pasta (disco w1))
                    (originais (disco w) arquivos).
Proof.
  intros saida pasta Hn Hall Hout Hdest.
  destruct (empacotar_comprimir_total arquivos output w Hn Hall Hout)
    as (entries & evs & Hemb & Hpack).
  pose proof (entradas_originais _ _ _ Hall Hemb) as Hent.
  assert (Hlen : len entries = len arquivos).
  { unfold len. now rewrite (Forall2_length _ _ _ Hemb). }
  eexists. eexists. split; [exact Hpack|].
  rewrite <- Hlen.
  rewrite (descomprimir_desempacotar_eq saida pasta_destino _
             (zlib_compress (Payload (len entries) entries) 9)
             (Payload (len entries) entries)).
  - fold pasta.
    rewrite (desempacotar_dados_entradas pasta _ entries
               (originais (disco w) arquivos)).
    + split; reflexivity.
    + now rewrite Hlen.
    + exact Hent.
    + intros x Hx. cbn [disco com_disco com_traco].
      unfold originais in Hx. apply list_elem_of_fmap in Hx as (a & -> & Ha).
      cbn [fst].
      rewrite Forall_forall in Hdest. specialize (Hdest a Ha).
      rewrite Forall_forall in Hall. specialize (Hall a Ha).
      apply embutivel_inv in Hall as (_ & _ & _ & _ & _ & _ & Hne).
      pose proof (os_path_join_ne pasta _ Hne (basename_sem_barra a)) as Hp.
      unfold preparar.
      destruct (_ !! pasta).
      * destruct (decide (saida = os_path_join pasta (basename a))) as [<-|Hs].
        -- now rewrite lookup_insert_eq.
        -- now rewrite lookup_insert_ne.
      * rewrite lookup_insert_ne by (intros Heq; now apply Hp).
        destruct (decide (saida = os_path_join pasta (basename a))) as [<-|Hs].
        -- now rewrite lookup_insert_eq.
        -- now rewrite lookup_insert_ne.
  - cbn [disco com_disco com_traco]. apply lookup_insert_eq.
  - now apply zlib_decompress_compress.
Qed.

End VaiEVolta.

(* ===================================================================== *)
(** * The claims *)
(* ===================================================================== *)

Lemma nome_saida_spec (output : str) :
  (tem_sufixo output -> nome_saida output = output)
  /\ (~ tem_sufixo output -> nome_saida output = output ++ py ".dmd").
Proof.
  unfold nome_saida, tem_sufixo.
  destruct (endswith output (py ".dmd")) eqn:E; cbn [negb]; split; try done.
  - intros Hn. exfalso. apply Hn. now apply endswith_spec.
  - intros Hs%endswith_spec. congruence.
Qed.

Lemma montar_pacote_contagem (arquivos : list str) (w w' : mundo)
    (dados : bytes) :
  montar_pacote arquivos w = (Retorno dados, w') -> len arquivos < 2 ^ 32.
Proof.
  rewrite montar_pacote_eq.
  destruct (struct_pack_I (len arquivos)) as [cab| |] eqn:E; try discriminate.
  intros _. exact (struct_pack_I_inv _ _ E).
Qed.

(** A run of the packer that returns wrote one file: the archive of the
    entries of the existing paths, at the normalised output path. *)
Lemma empacotar_comprimir_retorno `{Zlib} (arquivos : list str)
    (output : str) (w w' : mundo) :
  empacotar_comprimir arquivos output w = (Retorno tt, w') ->
  exists entries,
    Forall2 (embutido (disco w)) (existentes (disco w) arquivos) entries
    /\ len arquivos < 2 ^ 32
    /\ disco w'
       = <[nome_saida output :=
             Arquivo (MAGIC_NUMBER
                      ++ zlib_compress (Payload (len arquivos) entries) 9)]>
           (disco w).
Proof.
  rewrite empacotar_comprimir_eq.
  destruct (montar_pacote arquivos w) as [[dados|e|c] w1] eqn:Em;
    try discriminate.
  pose proof (montar_pacote_disco _ _ _ _ Em) as Hd.
  pose proof (montar_pacote_contagem _ _ _ _ Em) as Hn.
  apply montar_pacote_retorno in Em as (entries & Hemb & ->).
  cbv zeta. rewrite Hd.
  destruct (disco w !! nome_saida output) as [[c|]|]; try discriminate;
    intros [= <-]; exists entries; cbn [disco com_traco com_disco];
    repeat split; assumption.
Qed.

(** C3. Magic rejection. A file that exists and whose first four bytes
    (or fewer, when it is shorter) are not the magic number makes the
    unpacker print the format error and leave with exit status 1. The only
    event it adds to the log is that line, so [zlib.decompress] was not
    called; the disk is as it was, so no destination directory was
    created. *)
Theorem magic_rejection `{Zlib} (arquivo_dmd : str)
    (pasta_destino : option str) (w : mundo) (f : bytes) :
  disco w !! arquivo_dmd = Some (Arquivo f) ->
  take 4 f <> MAGIC_NUMBER ->
  exists w',
    descomprimir_desempacotar arquivo_dmd pasta_destino w = (Sai 1, w')
    /\ traco w' = traco w ++ [Print MsgFormatoInvalido]
    /\ disco w' = disco w.
Proof.
  intros Hd Hmagic. exists (com_traco w [Print MsgFormatoInvalido]).
  rewrite (descomprimir_desempacotar_magic _ _ _ f Hd Hmagic).
  repeat split.
Qed.

Lemma magic_rejection_witness :
  exists w',
    descomprimir_desempacotar (py "velho.dmd") None (mundo_inicial disco_zip)
    = (Sai 1, w')
    /\ traco w' = traco (mundo_inicial disco_zip) ++ [Print MsgFormatoInvalido]
    /\ disco w' = disco (mundo_inicial disco_zip).
Proof.
  apply (magic_rejection (py "velho.dmd") None (mundo_inicial disco_zip)
           (ascii_bytes "PK-not-a-diamond")).
  - vm_compute. reflexivity.
  - vm_compute. discriminate.
Defined.

(** The last [c] of [p] is where [rfind] says. *)
Lemma rfind_lookup (p : str) (c : N) :
  (0 <= rfind p c)%Z -> p !! Z.to_nat (rfind p c) = Some c.
Proof.
  induction p as [|x p IH]; simpl rfind; [lia|].
  pose proof (rfind_ge p c) as Hge.
  destruct (Z.leb_spec 0 (rfind p c)) as [Hi|Hi].
  - intros _. replace (Z.to_nat (rfind p c + 1)) with (S (Z.to_nat (rfind p c)))
      by lia.
    simpl. now apply IH.
  - destruct (N.eqb_spec x c) as [->|Hne]; [reflexivity | lia].
Qed.

(** [os.path.basename] gives the name of the file. *)
Lemma basename_spec (a : str) : nome_do_arquivo a (basename a).
Proof.
  split; [apply basename_sem_barra|].
  pose proof (rfind_ge a barra) as Hge. unfold basename.
  destruct (Z.leb_spec 0 (rfind a barra)) as [Hi|Hi].
  - right. exists (take (Z.to_nat (rfind a barra)) a).
    pose proof (rfind_lookup a barra Hi) as Hl.
    replace (Z.to_nat (rfind a barra + 1)) with (S (Z.to_nat (rfind a barra)))
      by lia.
    rewrite app_assoc, <- (take_S_r _ _ _ Hl). now rewrite take_drop.
  - left. replace (rfind a barra) with (-1)%Z by lia. reflexivity.
Qed.

(** What the packer embeds is the entry the format asks for. *)
Lemma embutido_formato (d : gmap str no) (a : str) (e : bytes * bytes) :
  embutido d a e -> entrada_do_formato d a e.
Proof.
  intros (Hn & Hd & _). unfold nome_bytes_de in Hn.
  destruct (str_encode (basename a)) as [utf8| |] eqn:Eu; try discriminate.
  exists (basename a), utf8. split; [apply basename_spec|].
  split; [exact Eu|]. split; [|exact Hd].
  injection Hn as <-. unfold fatia.
  destruct (N.ltb_spec 255 (len utf8)) as [Hl|Hl]; [reflexivity|].
  symmetry. apply take_ge. unfold len in Hl. lia.
Qed.

(** C6. Archive layout. Whenever the packer returns, the file at the
    output path is the 4-byte magic number followed by the payload
    compressed by zlib at its highest level, and the payload is the 4-byte
    file count followed by one entry per existing path, in the order the
    paths were given: the name length in one byte, the name, the content
    length in four bytes, the content, with nothing in between. The name
    of an entry is the UTF-8 encoding of the name of its file (what
    follows the last ['/'] of the path), cut to its first 255 bytes when
    it is longer; the content is what the file held. Every length fits its
    field. *)
Theorem archive_layout `{Zlib} (arquivos : list str) (output : str)
    (w w' : mundo) :
  empacotar_comprimir arquivos output w = (Retorno tt, w') ->
  exists entries,
    Forall2 (entrada_do_formato (disco w)) (existentes (disco w) arquivos)
      entries
    /\ Forall (fun e => len e.1 <= 255 /\ len e.2 < 2 ^ 32) entries
    /\ len arquivos < 2 ^ 32
    /\ disco w' !! nome_saida output
       = Some (Arquivo
                 (MAGIC_NUMBER
                  ++ zlib_compress (Payload (len arquivos) entries)
                       Z_BEST_COMPRESSION)).
Proof.
  intros (entries & Hemb & Hn & ->)%empacotar_comprimir_retorno.
  exists entries. repeat split; try assumption.
  - eapply Forall2_impl; [exact Hemb|]. apply embutido_formato.
  - clear -Hemb. induction Hemb as [|a e ? ? (Hnb & _ & Hc) _ IH];
      constructor; [|exact IH].
    split; [exact (nome_bytes_de_len _ _ Hnb) | exact Hc].
  - apply lookup_insert_eq.
Qed.

Lemma archive_layout_witness :
  exists entries,
    Forall2 (entrada_do_formato disco_exemplo)
      (existentes disco_exemplo [py "a.txt"; py "falta.txt"; py "b.bin"])
      entries
    /\ Forall (fun e => len e.1 <= 255 /\ len e.2 < 2 ^ 32) entries
    /\ len [py "a.txt"; py "falta.txt"; py "b.bin"] < 2 ^ 32
    /\ disco (empacotar_comprimir [py "a.txt"; py "falta.txt"; py "b.bin"]
                (py "saida") (mundo_inicial disco_exemplo)).2
         !! nome_saida (py "saida")
       = Some (Arquivo
                 (MAGIC_NUMBER
                  ++ zlib_compress (Payload 3 entries) Z_BEST_COMPRESSION)).
Proof.
  apply (archive_layout [py "a.txt"; py "falta.txt"; py "b.bin"] (py "saida")
           (mundo_inicial disco_exemplo)).
  vm_compute. reflexivity.
Defined.

(** C7. Output suffix. Whenever the packer returns, it wrote the archive
    to the given path when that path ends with [.dmd], and to the given
    path followed by [.dmd] when it does not; no other path of the disk
    changed. *)
Theorem output_suffix `{Zlib} (arquivos : list str) (output : str)
    (w w' : mundo) :
  empacotar_comprimir arquivos output w = (Retorno tt, w') ->
  exists archive,
    (tem_sufixo output -> disco w' = <[output := Arquivo archive]> (disco w))
    /\ (~ tem_sufixo output ->
        disco w' = <[output ++ py ".dmd" := Arquivo archive]> (disco w)).
Proof.
  intros (entries & _ & _ & ->)%empacotar_comprimir_retorno.
  destruct (nome_saida_spec output) as [Hs Hn].
  eexists. split; intros Ht.
  - now rewrite (Hs Ht).
  - now rewrite (Hn Ht).
Qed.

Lemma output_suffix_witness :
  exists archive,
    (tem_sufixo (py "saida") ->
     disco (empacotar_comprimir [py "a.txt"] (py "saida")
              (mundo_inicial disco_exemplo)).2
     = <[py "saida" := Arquivo archive]> (disco (mundo_inicial disco_exemplo)))
    /\ (~ tem_sufixo (py "saida") ->
        disco (empacotar_comprimir [py "a.txt"] (py "saida")
                 (mundo_inicial disco_exemplo)).2
        = <[py "saida" ++ py ".dmd" := Arquivo archive]>
            (disco (mundo_inicial disco_exemplo))).
Proof.
  apply (output_suffix [py "a.txt"] (py "saida") (mundo_inicial disco_exemplo)).
  vm_compute. reflexivity.
Defined.

(** The rounding of a quotient misses it by at most one half. *)
Lemma arredonda_proximo (a d : Z) :
  (0 <= a)%Z -> (0 < d)%Z ->
  (0 <= arredonda a d)%Z
  /\ (Z.abs (2 * a - 2 * arredonda a d * d) <= d)%Z.
Proof.
  intros Ha Hd. unfold arredonda.
  pose proof (Z.div_mod a d ltac:(lia)) as Hdm.
  pose proof (Z.mod_pos_bound a d Hd) as Hr.
  pose proof (Z.div_pos a d Ha Hd) as Hq.
  set (q := (a / d)%Z) in *. set (r := (a mod d)%Z) in *.
  assert (Hk0 : (2 * a - 2 * q * d = 2 * r)%Z) by lia.
  assert (Hk1 : (2 * a - 2 * (q + 1) * d = 2 * r - 2 * d)%Z) by lia.
  destruct (Z.ltb_spec (2 * r) d); [split; [lia|rewrite Hk0; lia]|].
  destruct (Z.ltb_spec d (2 * r)); [split; [lia|rewrite Hk1; lia]|].
  destruct (Z.even q); (split; [lia|]); [rewrite Hk0 | rewrite Hk1]; lia.
Qed.

(** The tenths printed for a finite float are nearest to it. *)
Lemma decimos_proximo (m : positive) (e : Z) :
  decimo_mais_proximo m e (decimos m e).
Proof.
  unfold decimo_mais_proximo, decimos.
  destruct (Z.leb_spec 0 e) as [He|He].
  - split; [|reflexivity].
    pose proof (Z.pow_nonneg 2 e ltac:(lia)). nia.
  - assert (Hp : (0 < 2 ^ (- e))%Z) by (apply Z.pow_pos_nonneg; lia).
    apply arredonda_proximo; lia.
Qed.

(** C8, as the code has it. The compression rate. Whenever the packer
    returns, the last line it printed is the rate, computed from the
    length of the compressed payload and the length of the payload, which
    is not zero. The percentage on that line is the value of
    [(1 - comprimido/original) * 100] in binary64 arithmetic, each of the
    three operations rounded to nearest, written with one digit after the
    point; when that float is finite, the tenths written are an integer
    nearest to ten times the float. *)
Theorem rate_is_computed_in_binary64 `{Zlib} (arquivos : list str)
    (output : str) (w w' : mundo) :
  empacotar_comprimir arquivos output w = (Retorno tt, w') ->
  exists (dados : bytes) (t : taxa_t),
    (montar_pacote arquivos w).1 = Retorno dados
    /\ last (traco w') = Some (Print (MsgTaxa t))
    /\ t = Taxa (len (zlib_compress dados 9)) (len dados)
    /\ len dados <> 0
    /\ percentual t
       = (formata_1f
            ((1 - int_truediv (len (zlib_compress dados 9)) (len dados))
             * 100)%float
          ++ "%")%string
    /\ match Prim2SF (taxa_float t) with
       | S754_finite s m e =>
           exists k : Z,
             decimo_mais_proximo m e k
             /\ percentual t = (com_uma_casa s k ++ "%")%string
       | _ => True
       end.
Proof.
  rewrite empacotar_comprimir_eq.
  destruct (montar_pacote arquivos w) as [[dados|e|c] w1] eqn:Em;
    try discriminate.
  pose proof (montar_pacote_retorno _ _ _ _ Em) as (entries & _ & Hdados).
  pose proof (len_Payload (len arquivos) entries) as Hlen.
  rewrite <- Hdados in Hlen. cbv zeta.
  intros Hrun.
  exists dados, (Taxa (len (zlib_compress dados 9)) (len dados)).
  split; [reflexivity|]. split.
  { destruct (disco w1 !! nome_saida output) as [[?|]|]; try discriminate;
      injection Hrun as <-; unfold com_traco, com_disco; cbn [traco];
      rewrite last_app; reflexivity. }
  split; [reflexivity|]. split; [lia|]. split; [reflexivity|].
  unfold percentual, formata_1f.
  destruct (Prim2SF _) as [s|s| |s m e]; try exact I.
  exists (decimos m e). split; [apply decimos_proximo | reflexivity].
Qed.

Lemma rate_is_computed_in_binary64_witness :
  exists (dados : bytes) (t : taxa_t),
    (montar_pacote [py "a.txt"; py "b.bin"] (mundo_inicial disco_exemplo)).1
    = Retorno dados
    /\ last (traco (empacotar_comprimir [py "a.txt"; py "b.bin"] (py "saida")
                      (mundo_inicial disco_exemplo)).2)
       = Some (Print (MsgTaxa t))
    /\ t = Taxa (len (zlib_compress dados 9)) (len dados)
    /\ len dados <> 0
    /\ percentual t
       = (formata_1f
            ((1 - int_truediv (len (zlib_compress dados 9)) (len dados))
             * 100)%float
          ++ "%")%string
    /\ match Prim2SF (taxa_float t) with
       | S754_finite s m e =>
           exists k : Z,
             decimo_mais_proximo m e k
             /\ percentual t = (com_uma_casa s k ++ "%")%string
       | _ => True
       end.
Proof.
  apply (rate_is_computed_in_binary64 [py "a.txt"; py "b.bin"] (py "saida")
           (mundo_inicial disco_exemplo)
           (empacotar_comprimir [py "a.txt"; py "b.bin"] (py "saida")
              (mundo_inicial disco_exemplo)).2).
  vm_compute. reflexivity.
Defined.

(** C8, as stated, fails. The file [a.txt] of 66 bytes gives a payload of
    80 bytes, which zlib compresses to 29 bytes. The rate is then
    [(1 - 29/80) * 100], which is 63.75 exactly ([4 * 5100 = 255 * 80]);
    to one decimal place that is 63.8, and the packer prints 63.7, because
    the float it computes lies just below 63.75. For the sizes 21 and 80
    the value is 73.75 exactly, the same tie, and the text is 73.8: none
    of the usual rules for a tie (half up, half down, half to even, half
    to odd) gives both texts. *)
Lemma rate_rounds_the_float_not_the_fraction :
  len pacote_sete = 80 /\ len fluxo_sete = 29
  /\ (exists w',
        empacotar_comprimir (H := zlib_tabela) [py "a.txt"] (py "saida")
          (mundo_inicial disco_sete)
        = (Retorno tt, w')
        /\ last (traco w') = Some (Print (MsgTaxa (Taxa 29 80))))
  /\ (4 * (100 * (80 - 29)) = 255 * 80)%Z
  /\ percentual (Taxa 29 80) = "63.7%"%string
  /\ percentual_exato (Taxa 29 80) = "63.8%"%string
  /\ percentual (Taxa 29 80) <> percentual_exato (Taxa 29 80)
  /\ (4 * (100 * (80 - 21)) = 295 * 80)%Z
  /\ percentual (Taxa 21 80) = "73.8%"%string.
Proof.
  split; [reflexivity|]. split; [reflexivity|]. split.
  { eexists. split; [vm_compute; reflexivity|]. vm_compute. reflexivity. }
  split; [reflexivity|]. split; [vm_compute; reflexivity|].
  split; [vm_compute; reflexivity|]. split; [vm_compute; discriminate|].
  split; [reflexivity|]. vm_compute. reflexivity.
Qed.

(** C9. The payload is never empty. Whatever the list of paths, and so
    also when none of them exists, the payload the packer has built when
    it reaches the compression holds at least the 4-byte file count: its
    length is at least 4, and the division of the compression rate by
    that length does not raise [ZeroDivisionError]. *)
Theorem payload_at_least_header (arquivos : list str) (w w' : mundo)
    (dados : bytes) :
  montar_pacote arquivos w = (Retorno dados, w') ->
  4 <= len dados
  /\ forall tamanho_comprimido,
       calcular_taxa tamanho_comprimido (len dados)
       = Retorno (Taxa tamanho_comprimido (len dados)).
Proof.
  intros (entries & _ & ->)%montar_pacote_retorno.
  pose proof (len_Payload (len arquivos) entries) as Hlen.
  split; [exact Hlen|]. intros c. unfold calcular_taxa.
  destruct (N.eqb_spec (len (Payload (len arquivos) entries)) 0);
    [lia | reflexivity].
Qed.

Lemma payload_at_least_header_witness :
  4 <= len (u32 2)
  /\ forall tamanho_comprimido,
       calcular_taxa tamanho_comprimido (len (u32 2))
       = Retorno (Taxa tamanho_comprimido (len (u32 2))).
Proof.
  apply (payload_at_least_header [py "nada"; py "nenhum"] (mundo_inicial ∅)
           (com_traco (mundo_inicial ∅)
              [Print (MsgEmpacotando 2); Print (MsgNaoEncontrado (py "nada"));
               Print (MsgNaoEncontrado (py "nenhum"))])).
  vm_compute. reflexivity.
Defined.

(** C10. Packing is deterministic. Take two worlds that agree at every
    listed path (the same node there, or none in both) and on whether the
    output path is a directory. The packer then ends the same way in both,
    prints the same lines, and writes the same bytes at the output path
    (or writes nothing in both); what else the two disks hold, and what
    was logged before, plays no part. *)
Theorem pack_deterministic `{Zlib} (arquivos : list str) (output : str)
    (w1 w2 : mundo) :
  Forall (fun a => disco w1 !! a = disco w2 !! a) arquivos ->
  (disco w1 !! nome_saida output = Some Pasta
   <-> disco w2 !! nome_saida output = Some Pasta) ->
  exists r evs escrita,
    empacotar_comprimir arquivos output w1
    = (r, com_traco
            (com_disco w1 (gravado (nome_saida output) escrita (disco w1)))
            evs)
    /\ empacotar_comprimir arquivos output w2
       = (r, com_traco
               (com_disco w2 (gravado (nome_saida output) escrita (disco w2)))
               evs).
Proof.
  intros Hag Hout. rewrite Forall_forall in Hag.
  rewrite !empacotar_comprimir_eq.
  destruct (montar_pacote_agree arquivos w1 w2 Hag) as (r & evs & -> & ->).
  assert (Hid : forall w, com_disco w (disco w) = w) by (now intros []).
  destruct r as [dados|e|c]; cbv zeta.
  - change (disco (com_traco w1 evs)) with (disco w1).
    change (disco (com_traco w2 evs)) with (disco w2).
    destruct (decide (disco w1 !! nome_saida output = Some Pasta)) as [H1|H1].
    + pose proof (proj1 Hout H1) as H2. rewrite H1, H2.
      exists (Sai 1),
        (evs ++ [Print MsgComprimindo; ZlibCompress 9;
                 Print (MsgErroEmpacotar IsADirectoryError)]), None.
      cbn [gravado]. rewrite !Hid, !com_traco_app.
      rewrite <- ?app_assoc; split; reflexivity.
    + assert (H2 : disco w2 !! nome_saida output <> Some Pasta)
        by (intros H2; apply H1; now apply Hout).
      exists (Retorno tt),
        (evs ++ [Print MsgComprimindo; ZlibCompress 9] ++
           [Print MsgSucesso; Print (MsgArquivoCriado (nome_saida output));
            Print (MsgTamanhoOriginal (len dados));
            Print (MsgTamanhoComprimido (len (zlib_compress dados 9)));
            Print (MsgTaxa (Taxa (len (zlib_compress dados 9)) (len dados)))]),
        (Some (MAGIC_NUMBER ++ zlib_compress dados 9)).
      cbn [gravado].
      destruct (disco w1 !! nome_saida output) as [[?|]|];
        destruct (disco w2 !! nome_saida output) as [[?|]|]; try done;
        unfold com_traco, com_disco; cbn [disco traco];
        rewrite <- ?app_assoc; split; reflexivity.
  - exists (Sai 1), (evs ++ [Print (MsgErroEmpacotar e)]), None.
    cbn [gravado]. rewrite !Hid, !com_traco_app. split; reflexivity.
  - exists (Sai c), evs, None. cbn [gravado]. rewrite !Hid. split; reflexivity.
Qed.

Lemma pack_deterministic_witness :
  exists r evs escrita,
    empacotar_comprimir [py "a.txt"; py "falta.txt"] (py "saida")
      (mundo_inicial disco_exemplo)
    = (r, com_traco
            (com_disco (mundo_inicial disco_exemplo)
               (gravado (nome_saida (py "saida")) escrita
                  (disco (mundo_inicial disco_exemplo))))
            evs)
    /\ empacotar_comprimir [py "a.txt"; py "falta.txt"] (py "saida")
         (com_traco (mundo_inicial (delete (py "b.bin") disco_exemplo))
            [Print MsgSucesso])
       = (r, com_traco
               (com_disco
                  (com_traco (mundo_inicial (delete (py "b.bin") disco_exemplo))
                     [Print MsgSucesso])
                  (gravado (nome_saida (py "saida")) escrita
                     (disco
                        (com_traco
                           (mundo_inicial (delete (py "b.bin") disco_exemplo))
                           [Print MsgSucesso]))))
               evs).
Proof.
  apply (pack_deterministic [py "a.txt"; py "falta.txt"] (py "saida")
           (mundo_inicial disco_exemplo)
           (com_traco (mundo_inicial (delete (py "b.bin") disco_exemplo))
              [Print MsgSucesso])).
  - repeat (constructor; [vm_compute; reflexivity|]). constructor.
  - vm_compute. split; intros Hx; exact Hx.
Defined.

Ltac resolve_embutivel :=
  vm_compute; repeat split; try reflexivity; intros; discriminate.

(** C2, as the code has it. Round trip. Take existing regular files
    whose base names have UTF-8 encodings of at most 255 bytes. Whenever
    packing them returns and unpacking the archive it wrote returns, every
    file whose base name no later file of the list shares is in the
    destination directory, under that base name, with the content it had
    when it was packed, byte for byte. (A file whose base name comes again
    later in the list is overwritten by the later one.) *)
Theorem roundtrip_last_wins `{Zlib} (arquivos : list str) (output : str)
    (pasta_destino : option str) (w w1 w2 : mundo) :
  let saida := nome_saida output in
  let pasta := pasta_efetiva saida pasta_destino in
  Forall (arquivo_nomeado (disco w)) arquivos ->
  empacotar_comprimir arquivos output w = (Retorno tt, w1) ->
  descomprimir_desempacotar saida pasta_destino w1 = (Retorno tt, w2) ->
  forall (i : nat) (a : str),
    arquivos !! i = Some a ->
    (forall (j : nat) (a' : str),
       (i < j)%nat -> arquivos !! j = Some a' ->
       basename a' <> basename a) ->
    disco w2 !! os_path_join pasta (basename a)
    = Some (Arquivo (conteudo_em (disco w) a)).
Proof.
  intros saida pasta Hall Hpack Hunpack i a Hi Hlast.
  apply empacotar_comprimir_retorno in Hpack as (entries & Hemb & Hn & Hd1).
  rewrite existentes_nomeados in Hemb by assumption.
  pose proof (entradas_nomeadas _ _ _ Hall Hemb) as Hent.
  assert (Hlen : len entries = len arquivos).
  { unfold len. now rewrite (Forall2_length _ _ _ Hemb). }
  rewrite <- Hlen in Hd1, Hn.
  apply (descomprimir_desempacotar_retorno saida pasta_destino w1 w2
           (zlib_compress (Payload (len entries) entries) 9) entries
           (originais (disco w) arquivos)) in Hunpack;
    [| rewrite Hd1; apply lookup_insert_eq
     | now apply zlib_decompress_compress
     | exact Hn
     | exact Hent].
  subst w2. fold pasta. cbn [disco com_traco com_disco].
  apply (extrair_lookup_ultimo pasta _ _ i
           (basename a, conteudo_em (disco w) a)).
  - unfold originais. now rewrite list_lookup_fmap, Hi.
  - intros j y Hij Hj Heq. unfold originais in Hj.
    rewrite list_lookup_fmap in Hj.
    destruct (arquivos !! j) as [a'|] eqn:Ej; [|discriminate].
    injection Hj as <-. cbn [fst] in Heq.
    apply os_path_join_inj in Heq; try apply basename_sem_barra.
    exact (Hlast j a' Hij Ej Heq).
Qed.

Lemma roundtrip_last_wins_witness :
  disco (descomprimir_desempacotar (nome_saida (py "saida")) None
           (empacotar_comprimir [py "a.txt"; py "b.bin"] (py "saida")
              (mundo_inicial disco_exemplo)).2).2
    !! os_path_join (pasta_efetiva (nome_saida (py "saida")) None)
         (basename (py "a.txt"))
  = Some (Arquivo (conteudo_em (disco (mundo_inicial disco_exemplo))
                     (py "a.txt"))).
Proof.
  apply (roundtrip_last_wins [py "a.txt"; py "b.bin"] (py "saida") None
           (mundo_inicial disco_exemplo)
           (empacotar_comprimir [py "a.txt"; py "b.bin"] (py "saida")
              (mundo_inicial disco_exemplo)).2
           (descomprimir_desempacotar (nome_saida (py "saida")) None
              (empacotar_comprimir [py "a.txt"; py "b.bin"] (py "saida")
                 (mundo_inicial disco_exemplo)).2).2)
    with (i := 0%nat).
  - repeat (constructor; [vm_compute; discriminate|]). constructor.
  - vm_compute. reflexivity.
  - vm_compute. reflexivity.
  - reflexivity.
  - intros j a' Hij Hj. destruct j as [|[|j]]; [lia| |discriminate].
    injection Hj as <-. vm_compute. discriminate.
Defined.

(** C2, as stated, fails, in two ways. First, two existing files,
    [a/x.txt] holding [one] and [b/x.txt] holding [two], have base names
    of five bytes. With any zlib, packing them and unpacking the archive
    both return, and the destination holds [two] under [x.txt]: the
    content of [a/x.txt] was not reproduced. Second, with a directory at
    [saida.dmd], packing the existing file [a.txt] to [saida] ends with
    exit status 1 and writes nothing: no archive is produced, so nothing
    is reproduced. *)
Lemma roundtrip_fails_as_stated :
  (Forall (embutivel disco_homonimos) [py "a/x.txt"; py "b/x.txt"]
   /\ forall Z : Zlib,
        exists w1 w2,
          empacotar_comprimir [py "a/x.txt"; py "b/x.txt"] (py "saida")
            (mundo_inicial disco_homonimos) = (Retorno tt, w1)
          /\ descomprimir_desempacotar (py "saida.dmd") None w1
             = (Retorno tt, w2)
          /\ disco w2
               !! os_path_join (py "saida_extraido")
                    (basename (py "a/x.txt"))
             = Some (Arquivo (ascii_bytes "two"))
          /\ disco w2
               !! os_path_join (py "saida_extraido")
                    (basename (py "a/x.txt"))
             <> Some (Arquivo (conteudo_em disco_homonimos (py "a/x.txt"))))
  /\ (Forall (arquivo_nomeado disco_saida_pasta) [py "a.txt"]
      /\ forall Z : Zlib,
           exists w1,
             empacotar_comprimir [py "a.txt"] (py "saida")
               (mundo_inicial disco_saida_pasta) = (Sai 1, w1)
             /\ disco w1 = disco_saida_pasta).
Proof.
  split.
  - assert (Hall : Forall (embutivel disco_homonimos)
                     [py "a/x.txt"; py "b/x.txt"]).
    { repeat (constructor; [resolve_embutivel|]). constructor. }
    split; [exact Hall|]. intros Z.
    destruct (vai_e_volta [py "a/x.txt"; py "b/x.txt"] (py "saida") None
                (mundo_inicial disco_homonimos))
      as (w1 & w2 & Hpack & Hunpack & Hdisco).
    + vm_compute. reflexivity.
    + exact Hall.
    + vm_compute. discriminate.
    + repeat (constructor; [vm_compute; discriminate|]). constructor.
    + exists w1, w2. split; [exact Hpack|]. split; [exact Hunpack|].
      assert (Hx : disco w2
                     !! os_path_join (py "saida_extraido")
                          (basename (py "a/x.txt"))
                   = Some (Arquivo (ascii_bytes "two"))).
      { rewrite Hdisco.
        apply (extrair_lookup_ultimo _ _ _ 1%nat
                 (py "x.txt", ascii_bytes "two")).
        - reflexivity.
        - intros j y Hij Hj. destruct j as [|[|j]]; [lia|lia|discriminate]. }
      split; [exact Hx|]. rewrite Hx. vm_compute. discriminate.
  - split.
    + repeat (constructor; [vm_compute; discriminate|]). constructor.
    + intros Z.
      destruct (montar_pacote [py "a.txt"] (mundo_inicial disco_saida_pasta))
        as [[dados|e|c] wm] eqn:Em;
        [| exfalso; vm_compute in Em; discriminate
         | exfalso; vm_compute in Em; discriminate].
      pose proof (montar_pacote_disco _ _ _ _ Em) as Hd.
      eexists. split.
      * rewrite empacotar_comprimir_eq, Em. cbv zeta. rewrite Hd.
        change (disco (mundo_inicial disco_saida_pasta)
                  !! nome_saida (py "saida"))
          with (Some Pasta).
        reflexivity.
      * cbn [disco com_traco]. exact Hd.
Qed.

(** Evaluates the left-hand side of an equation whose right-hand side is
    still to be found. *)
Ltac calcula_esquerda :=
  match goal with
  | |- ?l = _ =>
      let v := eval vm_compute in l in
      transitivity v; [vm_cast_no_check (eq_refl v)|]
  end.

(** C1, where the code departs from it. Count consistency. Packing
    [a.txt], which exists, and [falta.txt], which does not, serialises one
    entry under a file count of 2: the count is [len(arquivos)], taken
    before the existence checks. The unpacker, told of two entries, writes
    the first and then fails on the missing second one with [IndexError]
    and exit status 1. *)
Theorem file_count_counts_missing_paths `{Zlib} :
  existentes disco_exemplo [py "a.txt"; py "falta.txt"] = [py "a.txt"]
  /\ (montar_pacote [py "a.txt"; py "falta.txt"]
        (mundo_inicial disco_exemplo)).1
     = Retorno (Payload 2 [(ascii_bytes "a.txt", ascii_bytes "hello")])
  /\ exists w1 w2,
       empacotar_comprimir [py "a.txt"; py "falta.txt"] (py "saida")
         (mundo_inicial disco_exemplo) = (Retorno tt, w1)
       /\ descomprimir_desempacotar (py "saida.dmd") None w1 = (Sai 1, w2)
       /\ last (traco w2) = Some (Print (MsgErroDesempacotar IndexError))
       /\ disco w2 !! py "saida_extraido/a.txt"
          = Some (Arquivo (ascii_bytes "hello")).
Proof.
  split; [vm_compute; reflexivity|]. split; [vm_compute; reflexivity|].
  eexists. eexists. split.
  { rewrite empacotar_comprimir_eq. calcula_esquerda. reflexivity. }
  rewrite (descomprimir_desempacotar_eq _ _ _
             (zlib_compress
                (Payload 2 [(ascii_bytes "a.txt", ascii_bytes "hello")]) 9)
             (Payload 2 [(ascii_bytes "a.txt", ascii_bytes "hello")]));
    [| vm_compute; reflexivity | now apply zlib_decompress_compress].
  split; [calcula_esquerda; reflexivity|].
  split; vm_compute; reflexivity.
Qed.

(** C4, where the code departs from it. Bounds of the cursor reads. An
    archive whose payload declares one file [a] of five bytes and holds
    only two of them is unpacked without any error: the slice of the
    content is cut short in silence, the file [a] is written with the two
    bytes, and the call returns. *)
Theorem short_content_is_written `{Zlib} :
  exists w',
    descomprimir_desempacotar (py "x.dmd") None
      (mundo_inicial
         (<[py "x.dmd" :=
              Arquivo (MAGIC_NUMBER ++ zlib_compress pacote_curto 9)]> ∅))
    = (Retorno tt, w')
    /\ disco w' !! py "x_extraido/a" = Some (Arquivo (ascii_bytes "hi"))
    /\ traco w'
       = [Print MsgDescomprimindo; ZlibDecompress;
          Print (MsgDesempacotando 1); Print (MsgExtraido (py "a") 5);
          Print MsgSucesso; Print (MsgExtraidosEm (py "x_extraido"))].
Proof.
  eexists.
  rewrite (descomprimir_desempacotar_eq _ _ _
             (zlib_compress pacote_curto 9) pacote_curto);
    [| vm_compute; reflexivity | now apply zlib_decompress_compress].
  split; [calcula_esquerda; reflexivity|].
  split; vm_compute; reflexivity.
Qed.

(** The name cut in the middle of a letter stops the walk of the payload
    at the first entry, before anything is written. *)
Lemma desempacotar_dados_nome_cortado (c : bytes) (pasta : str) (w : mundo) :
  desempacotar_dados (Payload 1 [(nome_cortado, c)]) pasta w
  = (Levanta UnicodeDecodeError, com_traco w [Print (MsgDesempacotando 1)]).
Proof. vm_compute. reflexivity. Qed.

Lemma montar_pacote_nome_longo :
  montar_pacote [nome_longo] (mundo_inicial disco_nome_longo)
  = (Retorno (Payload 1 [(nome_cortado, ascii_bytes "x")]),
     com_traco (mundo_inicial disco_nome_longo)
       [Print (MsgEmpacotando 1); Print (MsgIncluido nome_longo 1)]).
Proof.
  rewrite montar_pacote_eq.
  change (struct_pack_I (len [nome_longo])) with (Retorno (u32 1)).
  cbv beta iota.
  rewrite (empacotar_arquivos_arquivo _ _ _ (ascii_bytes "x"))
    by apply lookup_insert_eq.
  replace (nome_bytes_de nome_longo) with (Retorno (A:=bytes) nome_cortado)
    by (vm_compute; reflexivity).
  change (bytearray_append (u32 1) (len nome_cortado))
    with (Retorno (u32 1 ++ [byte_of_N (len nome_cortado)])).
  change (struct_pack_I (len (ascii_bytes "x"))) with (Retorno (u32 1)).
  cbv beta iota. cbn [empacotar_arquivos]. unfold mret, M_ret.
  rewrite com_traco_app. f_equal.
Qed.

(** C5, where the code departs from it. Name truncation. A file whose
    base name is 128 times the letter [U+00E9] has a UTF-8 name of 256
    bytes. The packer cuts it to exactly 255 bytes, in the middle of the
    last letter, and returns; the name it wrote does not decode, so the
    unpacker fails on the archive with [UnicodeDecodeError] and exit
    status 1, having created the destination and extracted nothing. *)
Theorem truncated_name_does_not_decode `{Zlib} :
  nome_bytes_de nome_longo = Retorno nome_cortado
  /\ len nome_cortado = 255
  /\ bytes_decode nome_cortado = Levanta UnicodeDecodeError
  /\ exists w1 w2 evs,
       empacotar_comprimir [nome_longo] (py "saida")
         (mundo_inicial disco_nome_longo) = (Retorno tt, w1)
       /\ descomprimir_desempacotar (py "saida.dmd") None w1 = (Sai 1, w2)
       /\ traco w2
          = evs ++ [Print (MsgErroDesempacotar UnicodeDecodeError)]
       /\ disco w2 = <[py "saida_extraido" := Pasta]> (disco w1).
Proof.
  split; [vm_compute; reflexivity|].
  split; [vm_compute; reflexivity|]. split; [vm_compute; reflexivity|].
  assert (Hs : nome_saida (py "saida") = py "saida.dmd")
    by (vm_compute; reflexivity).
  assert (Hl : disco_nome_longo !! py "saida.dmd" = None)
    by (vm_compute; reflexivity).
  assert (Hp : disco_nome_longo !! py "saida_extraido" = None)
    by (vm_compute; reflexivity).
  assert (Hpasta : pasta_efetiva (py "saida.dmd") None = py "saida_extraido")
    by (vm_compute; reflexivity).
  eexists. eexists. eexists. split.
  { rewrite empacotar_comprimir_eq, montar_pacote_nome_longo. cbv zeta.
    rewrite Hs. cbn [disco com_traco mundo_inicial]. rewrite Hl.
    reflexivity. }
  rewrite (descomprimir_desempacotar_eq _ _ _
             (zlib_compress (Payload 1 [(nome_cortado, ascii_bytes "x")]) 9)
             (Payload 1 [(nome_cortado, ascii_bytes "x")]));
    [| apply lookup_insert_eq | now apply zlib_decompress_compress].
  rewrite desempacotar_dados_nome_cortado, Hpasta.
  split; [reflexivity|].
  cbn [disco traco com_traco com_disco mundo_inicial].
  split.
  - reflexivity.
  - unfold preparar.
    rewrite lookup_insert_ne, Hp by (vm_compute; discriminate).
    reflexivity.
Qed.

(* ===================================================================== *)
(** * Further properties of the two functions *)
(* ===================================================================== *)

Lemma struct_unpack_I_curto (b : bytes) :
  length b <> 4%nat -> struct_unpack_I b = Levanta StructError.
Proof.
  destruct b as [|? [|? [|? [|? [|? ?]]]]]; simpl; intros Hl;
    try reflexivity; lia.
Qed.

Lemma length_fatia {A : Type} (l : list A) (a b : N) :
  length (fatia l a b)
  = Nat.min (N.to_nat (b - a)) (length l - N.to_nat a).
Proof. unfold fatia. now rewrite length_take, length_drop. Qed.

(** The name field, exactly. A base name whose UTF-8 encoding is longer
    than 255 bytes is written as the first 255 bytes of that encoding, and
    the name field is then exactly 255 bytes long; a shorter one is
    written whole. *)
Theorem name_cut_to_255_bytes (arquivo : str) (b : bytes) :
  str_encode (basename arquivo) = Retorno b ->
  (255 < len b ->
   nome_bytes_de arquivo = Retorno (take 255 b) /\ len (take 255 b) = 255)
  /\ (len b <= 255 -> nome_bytes_de arquivo = Retorno b).
Proof.
  intros Hb. split.
  - intros Hl. unfold nome_bytes_de. rewrite Hb.
    apply N.ltb_lt in Hl as Hl'. rewrite Hl'. split; [reflexivity|].
    unfold len in *. rewrite length_take. lia.
  - now apply nome_bytes_de_curto.
Qed.

Lemma name_cut_to_255_bytes_witness :
  (255 < len (concat (repeat [xc3; xa9] 128)) ->
   nome_bytes_de nome_longo = Retorno (take 255 (concat (repeat [xc3; xa9] 128)))
   /\ len (take 255 (concat (repeat [xc3; xa9] 128))) = 255)
  /\ (len (concat (repeat [xc3; xa9] 128)) <= 255 ->
      nome_bytes_de nome_longo = Retorno (concat (repeat [xc3; xa9] 128))).
Proof.
  apply (name_cut_to_255_bytes nome_longo (concat (repeat [xc3; xa9] 128))).
  vm_compute. reflexivity.
Defined.



Lemma str_encode_nao_sai (s : str) (c : N) : str_encode s <> Sai c.
Proof.
  induction s as [|x s IH]; simpl; [discriminate|].
  destruct (encode_cp x); [|discriminate].
  destruct (str_encode s); try discriminate. congruence.
Qed.

Lemma empacotar_arquivos_nao_sai (arquivos : list str) :
  forall (dados : bytes) (w w' : mundo) (c : N),
    empacotar_arquivos arquivos dados w <> (Sai c, w').
Proof.
  induction arquivos as [|a resto IH]; intros dados w w' c; [discriminate|].
  destruct (disco w !! a) as [[conteudo|]|] eqn:Ea.
  - rewrite (empacotar_arquivos_arquivo _ _ _ conteudo _ Ea).
    unfold nome_bytes_de.
    pose proof (str_encode_nao_sai (basename a)) as Hs.
    destruct (str_encode (basename a)) as [nb| |k];
      [|discriminate|now destruct (Hs k)].
    unfold bytearray_append, struct_pack_I.
    repeat match goal with
    | |- context [if ?t then _ else _] => destruct t
    end; try discriminate; apply IH.
  - rewrite (empacotar_arquivos_pasta _ _ _ _ Ea). discriminate.
  - rewrite (empacotar_arquivos_falta _ _ _ _ Ea). apply IH.
Qed.


(** The summary. When the packer returns, the last five lines it printed
    are the success line, the output path with its suffix, the length of
    the payload as the original size, the length of the compressed payload
    as the compressed size, and the rate computed from these two
    lengths. *)
Theorem summary_reports_the_two_sizes `{Zlib} (arquivos : list str)
    (output : str) (w w' : mundo) :
  empacotar_comprimir arquivos output w = (Retorno tt, w') ->
  exists dados evs,
    disco w' !! nome_saida output
    = Some (Arquivo (MAGIC_NUMBER ++ zlib_compress dados 9))
    /\ traco w'
       = evs ++ [Print MsgSucesso;
                 Print (MsgArquivoCriado (nome_saida output));
                 Print (MsgTamanhoOriginal (len dados));
                 Print (MsgTamanhoComprimido (len (zlib_compress dados 9)));
                 Print (MsgTaxa (Taxa (len (zlib_compress dados 9))
                                   (len dados)))].
Proof.
  rewrite empacotar_comprimir_eq.
  destruct (montar_pacote arquivos w) as [[dados|e|c] w1] eqn:Em;
    try discriminate.
  cbv zeta.
  destruct (disco w1 !! nome_saida output) as [[?|]|]; try discriminate;
    intros [= <-]; exists dados; eexists;
    (split; [apply lookup_insert_eq | reflexivity]).
Qed.

Lemma summary_reports_the_two_sizes_witness :
  exists dados evs,
    disco (empacotar_comprimir [py "a.txt"] (py "saida")
             (mundo_inicial disco_exemplo)).2
      !! nome_saida (py "saida")
    = Some (Arquivo (MAGIC_NUMBER ++ zlib_compress dados 9))
    /\ traco (empacotar_comprimir [py "a.txt"] (py "saida")
                (mundo_inicial disco_exemplo)).2
       = evs ++ [Print MsgSucesso;
                 Print (MsgArquivoCriado (nome_saida (py "saida")));
                 Print (MsgTamanhoOriginal (len dados));
                 Print (MsgTamanhoComprimido (len (zlib_compress dados 9)));
                 Print (MsgTaxa (Taxa (len (zlib_compress dados 9))
                                   (len dados)))].
Proof.
  apply (summary_reports_the_two_sizes [py "a.txt"] (py "saida")
           (mundo_inicial disco_exemplo)).
  vm_compute. reflexivity.
Defined.

(** An archive path that does not exist: one line is printed, the exit
    status is 1, and nothing is read, decompressed or created. *)
Theorem missing_archive_exits_1 `{Zlib} (arquivo_dmd : str)
    (pasta_destino : option str) (w : mundo) :
  disco w !! arquivo_dmd = None ->
  descomprimir_desempacotar arquivo_dmd pasta_destino w
  = (Sai 1, com_traco w [Print (MsgDmdNaoEncontrado arquivo_dmd)]).
Proof.
  intros Hd. unfold descomprimir_desempacotar.
  rewrite bind_run. unfold os_path_exists. rewrite Hd. cbn [negb].
  now rewrite bind_print.
Qed.

Lemma missing_archive_exits_1_witness :
  descomprimir_desempacotar (py "nada.dmd") None (mundo_inicial disco_exemplo)
  = (Sai 1,
     com_traco (mundo_inicial disco_exemplo)
       [Print (MsgDmdNaoEncontrado (py "nada.dmd"))]).
Proof.
  apply (missing_archive_exits_1 (py "nada.dmd") None
           (mundo_inicial disco_exemplo)).
  vm_compute. reflexivity.
Defined.

(** A compressed part that zlib refuses: the error is reported with exit
    status 1 before the destination directory is looked at, so the disk is
    as it was. *)
Theorem decompression_failure_exits_1 `{Zlib} (arquivo_dmd : str)
    (pasta_destino : option str) (w : mundo) (comprimidos : bytes) :
  disco w !! arquivo_dmd = Some (Arquivo (MAGIC_NUMBER ++ comprimidos)) ->
  zlib_decompress comprimidos = None ->
  descomprimir_desempacotar arquivo_dmd pasta_destino w
  = (Sai 1,
     com_traco w [Print MsgDescomprimindo; ZlibDecompress;
                  Print (MsgErroDesempacotar ZlibError)]).
Proof.
  intros Hd Hz. unfold descomprimir_desempacotar.
  rewrite bind_run. unfold os_path_exists at 1. rewrite Hd. cbn [negb].
  rewrite try_except_run, bind_run. unfold ler. rewrite Hd.
  change (fatia (MAGIC_NUMBER ++ comprimidos) 0 4) with MAGIC_NUMBER.
  rewrite bool_decide_eq_false_2 by (intros Hne; now apply Hne).
  rewrite bind_ret, bind_print, bind_run.
  change (drop 4 (MAGIC_NUMBER ++ comprimidos)) with comprimidos.
  unfold descomprimir. rewrite Hz. rewrite bind_print.
  unfold sys_exit, elevar, com_traco. cbn [disco traco].
  now rewrite <- !app_assoc.
Qed.

Lemma decompression_failure_exits_1_witness :
  descomprimir_desempacotar (py "ruim.dmd") None
    (mundo_inicial (<[py "ruim.dmd" := Arquivo (MAGIC_NUMBER ++ [x00])]> ∅))
  = (Sai 1,
     com_traco
       (mundo_inicial (<[py "ruim.dmd" := Arquivo (MAGIC_NUMBER ++ [x00])]> ∅))
       [Print MsgDescomprimindo; ZlibDecompress;
        Print (MsgErroDesempacotar ZlibError)]).
Proof.
  apply (decompression_failure_exits_1 (py "ruim.dmd") None
           (mundo_inicial
              (<[py "ruim.dmd" := Arquivo (MAGIC_NUMBER ++ [x00])]> ∅))
           [x00]).
  - vm_compute. reflexivity.
  - vm_compute. reflexivity.
Defined.

Lemma decode_aux_nao_sai (fuel : nat) :
  forall (b : bytes) (c : N), decode_aux fuel b <> Sai c.
Proof.
  induction fuel as [|fuel IH]; intros b c; destruct b as [|b0 b];
    try discriminate.
  change (decode_aux (S fuel) (b0 :: b))
    with (match decode_cp (b0 :: b) with
          | None => Levanta UnicodeDecodeError
          | Some (x, k) =>
              match decode_aux fuel (drop k (b0 :: b)) with
              | Retorno s => Retorno (x :: s)
              | r => r
              end
          end).
  destruct (decode_cp (b0 :: b)) as [[x k]|]; [|discriminate].
  pose proof (IH (drop k (b0 :: b))) as Hk.
  destruct (decode_aux fuel (drop k (b0 :: b))) as [s|e|k'];
    try discriminate. now destruct (Hk k').
Qed.

(** A payload shorter than its file count field: [struct.error], and
    nothing is written. *)
Theorem short_file_count_raises (dados : bytes) (pasta : str) (w : mundo) :
  len dados < 4 ->
  desempacotar_dados dados pasta w = (Levanta StructError, w).
Proof.
  intros Hl. unfold desempacotar_dados.
  rewrite bind_elevar, struct_unpack_I_curto; [reflexivity|].
  rewrite length_fatia. unfold len in Hl. lia.
Qed.

Lemma short_file_count_raises_witness :
  desempacotar_dados [x02; x00; x00] (py "saida_extraido")
    (mundo_inicial disco_exemplo)
  = (Levanta StructError, mundo_inicial disco_exemplo).
Proof.
  apply (short_file_count_raises [x02; x00; x00] (py "saida_extraido")
           (mundo_inicial disco_exemplo)).
  vm_compute. reflexivity.
Defined.

(** An entry whose name length, name or content length runs past the end
    of the payload: the loop raises at that entry ([IndexError] on the
    name length, [UnicodeDecodeError] or [struct.error] after it), and the
    entry writes no file. *)
Theorem short_entry_header_raises (dados : bytes) (pasta : str)
    (restantes : nat) (pos : N) (w : mundo) :
  len dados < pos + 1
              + match dados !! N.to_nat pos with
                | Some b => Byte.to_N b
                | None => 0
                end
              + 4 ->
  exists e,
    desempacotar_arquivos dados pasta (S restantes) pos w = (Levanta e, w).
Proof.
  intros Hl. cbn [desempacotar_arquivos]. rewrite bind_elevar.
  destruct (dados !! N.to_nat pos) as [b|]; [|now exists IndexError].
  rewrite bind_elevar.
  pose proof (decode_aux_nao_sai
                (length (fatia dados (pos + 1) (pos + 1 + Byte.to_N b)))
                (fatia dados (pos + 1) (pos + 1 + Byte.to_N b))) as Hs.
  unfold bytes_decode.
  destruct (decode_aux _ _) as [nome|e|c];
    [|now exists e|now destruct (Hs c)].
  rewrite bind_elevar, struct_unpack_I_curto; [now exists StructError|].
  rewrite length_fatia. unfold len in Hl. lia.
Qed.

Lemma short_entry_header_raises_witness :
  exists e,
    desempacotar_arquivos (u32 1 ++ [x03] ++ ascii_bytes "abc" ++ [x05; x00])
      (py "saida_extraido") 1 4 (mundo_inicial disco_exemplo)
    = (Levanta e, mundo_inicial disco_exemplo).
Proof.
  apply (short_entry_header_raises
           (u32 1 ++ [x03] ++ ascii_bytes "abc" ++ [x05; x00])
           (py "saida_extraido") 0 4 (mundo_inicial disco_exemplo)).
  vm_compute. reflexivity.
Defined.

(** A file of [2^32] bytes or more cannot be packed: its length does not
    fit the content length field, and [struct.pack] raises. *)
Lemma empacotar_arquivos_grande (arquivo : str) (resto : list str)
    (dados conteudo nome_bytes : bytes) (w : mundo) :
  disco w !! arquivo = Some (Arquivo conteudo) ->
  nome_bytes_de arquivo = Retorno nome_bytes ->
  2 ^ 32 <= len conteudo ->
  empacotar_arquivos (arquivo :: resto) dados w = (Levanta StructError, w).
Proof.
  intros Hd Hn Hl. rewrite (empacotar_arquivos_arquivo _ _ _ conteudo _ Hd), Hn.
  rewrite (bytearray_append_ok _ _ (nome_bytes_de_len _ _ Hn)).
  unfold struct_pack_I. apply N.ltb_ge in Hl. now rewrite Hl.
Qed.

(* ===================================================================== *)
(** * When the packer returns, and what it prints *)
(* ===================================================================== *)

Lemma nome_bytes_de_ok (a : str) :
  (exists nb, nome_bytes_de a = Retorno nb)
  <-> match str_encode (basename a) with
      | Retorno _ => True
      | _ => False
      end.
Proof.
  unfold nome_bytes_de.
  destruct (str_encode (basename a)) as [b|e|c]; split;
    try done; try (intros [? [=]]). eauto.
Qed.

(** The loop returns exactly when no listed path stops it; it then has
    printed one line per path, in order, and left the disk alone. *)
Lemma empacotar_arquivos_sse (arquivos : list str) :
  forall (dados : bytes) (w : mundo),
    (Forall (empacotavel (disco w)) arquivos ->
     exists d',
       empacotar_arquivos arquivos dados w
       = (Retorno d', com_traco w (map (linha_de (disco w)) arquivos)))
    /\ (forall d' w',
          empacotar_arquivos arquivos dados w = (Retorno d', w') ->
          Forall (empacotavel (disco w)) arquivos).
Proof.
  induction arquivos as [|a resto IH]; intros dados w.
  - split; [|constructor]. intros _. exists dados. simpl.
    now rewrite com_traco_nil.
  - assert (Hcab : forall P : Prop,
              (Forall (empacotavel (disco w)) (a :: resto) -> P)
              <-> (empacotavel (disco w) a ->
                   Forall (empacotavel (disco w)) resto -> P)).
    { intros P. rewrite Forall_cons. tauto. }
    cbn [map]. unfold linha_de at 1.
    split; [apply Hcab; unfold empacotavel at 1|];
      destruct (disco w !! a) as [[c|]|] eqn:Ea.
    + intros [Hc He] Hall.
      rewrite (empacotar_arquivos_arquivo _ _ _ c _ Ea).
      apply nome_bytes_de_ok in He as [nb Hnb]. rewrite Hnb.
      rewrite (bytearray_append_ok _ _ (nome_bytes_de_len _ _ Hnb)).
      destruct (struct_pack_I_ok _ Hc) as [t ->].
      destruct (IH (((dados ++ [byte_of_N (len nb)]) ++ nb) ++ t ++ c)
                  (com_traco w [Print (MsgIncluido a (len c))]))
        as [IH1 _].
      destruct (IH1 Hall) as [d' Hd']. exists d'.
      rewrite <- !app_assoc in Hd'. rewrite <- !app_assoc.
      rewrite Hd', com_traco_app. reflexivity.
    + intros [].
    + intros _ Hall. rewrite (empacotar_arquivos_falta _ _ _ _ Ea).
      destruct (IH dados (com_traco w [Print (MsgNaoEncontrado a)]))
        as [IH1 _].
      destruct (IH1 Hall) as [d' Hd']. exists d'.
      rewrite Hd', com_traco_app. reflexivity.
    + intros d' w'. rewrite (empacotar_arquivos_arquivo _ _ _ c _ Ea).
      pose proof (nome_bytes_de_ok a) as Hok.
      destruct (nome_bytes_de a) as [nb| |] eqn:Hnb; try discriminate.
      rewrite (bytearray_append_ok _ _ (nome_bytes_de_len _ _ Hnb)).
      destruct (struct_pack_I (len c)) as [t| |] eqn:Et; try discriminate.
      intros Hrun. constructor.
      * unfold empacotavel. rewrite Ea.
        split; [exact (struct_pack_I_inv _ _ Et) | apply Hok; eauto].
      * destruct (IH ((((dados ++ [byte_of_N (len nb)]) ++ nb) ++ t) ++ c)
                    (com_traco w [Print (MsgIncluido a (len c))]))
          as [_ IH2].
        exact (IH2 d' w' Hrun).
    + intros d' w'. rewrite (empacotar_arquivos_pasta _ _ _ _ Ea).
      discriminate.
    + intros d' w'. rewrite (empacotar_arquivos_falta _ _ _ _ Ea).
      intros Hrun. constructor.
      * unfold empacotavel. now rewrite Ea.
      * destruct (IH dados (com_traco w [Print (MsgNaoEncontrado a)]))
          as [_ IH2].
        exact (IH2 d' w' Hrun).
Qed.

Lemma montar_pacote_sse (arquivos : list str) (w : mundo) :
  (len arquivos < 2 ^ 32 -> Forall (empacotavel (disco w)) arquivos ->
   exists dados,
     montar_pacote arquivos w
     = (Retorno dados,
        com_traco w (Print (MsgEmpacotando (len arquivos))
                     :: map (linha_de (disco w)) arquivos)))
  /\ (forall dados w',
        montar_pacote arquivos w = (Retorno dados, w') ->
        len arquivos < 2 ^ 32 /\ Forall (empacotavel (disco w)) arquivos).
Proof.
  rewrite montar_pacote_eq. split.
  - intros Hn Hall. destruct (struct_pack_I_ok _ Hn) as [cab ->].
    destruct (empacotar_arquivos_sse arquivos cab
                (com_traco w [Print (MsgEmpacotando (len arquivos))]))
      as [H1 _].
    destruct (H1 Hall) as [d' Hd']. exists d'.
    rewrite Hd', com_traco_app. reflexivity.
  - intros dados w'.
    destruct (struct_pack_I (len arquivos)) as [cab| |] eqn:E;
      try discriminate.
    intros Hrun. split; [exact (struct_pack_I_inv _ _ E)|].
    destruct (empacotar_arquivos_sse arquivos cab
                (com_traco w [Print (MsgEmpacotando (len arquivos))]))
      as [_ H2].
    exact (H2 dados w' Hrun).
Qed.

(** A packer that returns was given nothing that stops it: the list has
    fewer than [2^32] paths, every path that exists is a regular file of
    fewer than [2^32] bytes whose base name can be encoded in UTF-8, and
    the output path is not a directory. (Missing paths do not stop it.) *)
Theorem pack_returns_only_if `{Zlib} (arquivos : list str) (output : str)
    (w w' : mundo) :
  empacotar_comprimir arquivos output w = (Retorno tt, w') ->
  len arquivos < 2 ^ 32
  /\ Forall (empacotavel (disco w)) arquivos
  /\ disco w !! nome_saida output <> Some Pasta.
Proof.
  rewrite empacotar_comprimir_eq.
  destruct (montar_pacote_sse arquivos w) as [_ H2].
  destruct (montar_pacote arquivos w) as [[dados|e|c] w1] eqn:Em;
    try discriminate.
  pose proof (montar_pacote_disco _ _ _ _ Em) as Hd.
  destruct (H2 dados w1 eq_refl) as [Hn Hall]. cbv zeta. rewrite Hd.
  destruct (disco w !! nome_saida output) as [[?|]|]; try discriminate;
    intros _; repeat split; try assumption; discriminate.
Qed.

Lemma pack_returns_only_if_witness :
  len [py "a.txt"; py "falta.txt"] < 2 ^ 32
  /\ Forall (empacotavel (disco (mundo_inicial disco_exemplo)))
       [py "a.txt"; py "falta.txt"]
  /\ disco (mundo_inicial disco_exemplo) !! nome_saida (py "saida")
     <> Some Pasta.
Proof.
  apply (pack_returns_only_if [py "a.txt"; py "falta.txt"] (py "saida")
           (mundo_inicial disco_exemplo)
           (empacotar_comprimir [py "a.txt"; py "falta.txt"] (py "saida")
              (mundo_inicial disco_exemplo)).2).
  vm_compute. reflexivity.
Defined.

(** What stops the packer makes it leave with exit status 1: a list of
    [2^32] paths or more, a listed path that is a directory, a listed file
    of [2^32] bytes or more or whose base name has no UTF-8 encoding, or a
    directory at the output path. *)
Theorem pack_stopped_exits_1 `{Zlib} (arquivos : list str) (output : str)
    (w : mundo) :
  ~ (len arquivos < 2 ^ 32
     /\ Forall (empacotavel (disco w)) arquivos
     /\ disco w !! nome_saida output <> Some Pasta) ->
  (empacotar_comprimir arquivos output w).1 = Sai 1.
Proof.
  intros Hnao. rewrite empacotar_comprimir_eq.
  destruct (montar_pacote_sse arquivos w) as [_ H2].
  destruct (montar_pacote arquivos w) as [[dados|e|c] w1] eqn:Em.
  - pose proof (montar_pacote_disco _ _ _ _ Em) as Hd.
    destruct (H2 dados w1 eq_refl) as [Hn Hall]. cbv zeta. rewrite Hd.
    destruct (disco w !! nome_saida output) as [[?|]|] eqn:Eo;
      try reflexivity; exfalso; apply Hnao; repeat split;
      try assumption; discriminate.
  - reflexivity.
  - exfalso. rewrite montar_pacote_eq in Em.
    destruct (struct_pack_I (len arquivos)) eqn:E.
    + now apply empacotar_arquivos_nao_sai in Em.
    + discriminate.
    + unfold struct_pack_I in E. now destruct (len arquivos <? 2 ^ 32).
Qed.

Lemma pack_stopped_exits_1_witness :
  (empacotar_comprimir [py "a.txt"] (py "saida")
     (mundo_inicial disco_saida_pasta)).1
  = Sai 1.
Proof.
  apply (pack_stopped_exits_1 [py "a.txt"] (py "saida")
           (mundo_inicial disco_saida_pasta)).
  intros (_ & _ & Hout). apply Hout. vm_compute. reflexivity.
Defined.

(** What a returning packer has printed: the count of paths given, then
    for each path, in the order given, either that it was included, with
    its size, or that it was not found; then the compression line, and
    the five lines of the summary. *)
Theorem pack_prints_one_line_per_path `{Zlib} (arquivos : list str)
    (output : str) (w w' : mundo) :
  empacotar_comprimir arquivos output w = (Retorno tt, w') ->
  exists dados,
    traco w'
    = traco w
      ++ [Print (MsgEmpacotando (len arquivos))]
      ++ map (linha_de (disco w)) arquivos
      ++ [Print MsgComprimindo; ZlibCompress 9; Print MsgSucesso;
          Print (MsgArquivoCriado (nome_saida output));
          Print (MsgTamanhoOriginal (len dados));
          Print (MsgTamanhoComprimido (len (zlib_compress dados 9)));
          Print (MsgTaxa (Taxa (len (zlib_compress dados 9)) (len dados)))].
Proof.
  rewrite empacotar_comprimir_eq.
  destruct (montar_pacote_sse arquivos w) as [H1 H2].
  destruct (montar_pacote arquivos w) as [[dados|e|c] w1] eqn:Em;
    try discriminate.
  destruct (H2 dados w1 eq_refl) as [Hn Hall].
  destruct (H1 Hn Hall) as [dados' Hd']. injection Hd' as <- ->.
  cbv zeta. change (disco (com_traco w _)) with (disco w).
  destruct (disco w !! nome_saida output) as [[?|]|]; try discriminate;
    intros [= <-]; exists dados; unfold com_traco, com_disco;
    cbn [disco traco]; rewrite <- !app_assoc; reflexivity.
Qed.

Lemma pack_prints_one_line_per_path_witness :
  exists dados,
    traco (empacotar_comprimir [py "a.txt"; py "falta.txt"; py "b.bin"]
             (py "saida") (mundo_inicial disco_exemplo)).2
    = traco (mundo_inicial disco_exemplo)
      ++ [Print (MsgEmpacotando (len [py "a.txt"; py "falta.txt"; py "b.bin"]))]
      ++ map (linha_de (disco (mundo_inicial disco_exemplo)))
           [py "a.txt"; py "falta.txt"; py "b.bin"]
      ++ [Print MsgComprimindo; ZlibCompress 9; Print MsgSucesso;
          Print (MsgArquivoCriado (nome_saida (py "saida")));
          Print (MsgTamanhoOriginal (len dados));
          Print (MsgTamanhoComprimido (len (zlib_compress dados 9)));
          Print (MsgTaxa (Taxa (len (zlib_compress dados 9)) (len dados)))].
Proof.
  apply (pack_prints_one_line_per_path
           [py "a.txt"; py "falta.txt"; py "b.bin"] (py "saida")
           (mundo_inicial disco_exemplo)).
  vm_compute. reflexivity.
Defined.

(* ===================================================================== *)
(** * How the unpacker ends, and what it writes *)
(* ===================================================================== *)

Lemma struct_unpack_I_nao_sai (b : bytes) (c : N) : struct_unpack_I b <> Sai c.
Proof. now destruct b as [|? [|? [|? [|? [|? ?]]]]]. Qed.

(** The loop never calls [sys.exit]: it returns or raises. *)
Lemma desempacotar_arquivos_nao_sai (dados : bytes) (pasta : str)
    (restantes : nat) :
  forall (pos : N) (w w' : mundo) (c : N),
    desempacotar_arquivos dados pasta restantes pos w <> (Sai c, w').
Proof.
  induction restantes as [|n IH]; intros pos w w' c; [discriminate|].
  cbn [desempacotar_arquivos]. rewrite bind_elevar.
  destruct (dados !! N.to_nat pos) as [b|]; [|discriminate].
  rewrite bind_elevar. unfold bytes_decode.
  match goal with
  | |- context [decode_aux ?f ?x] =>
      pose proof (decode_aux_nao_sai f x) as Hs;
      destruct (decode_aux f x) as [nome|e|k];
        [|discriminate|now destruct (Hs k)]
  end.
  rewrite bind_elevar.
  match goal with
  | |- context [struct_unpack_I ?x] =>
      pose proof (struct_unpack_I_nao_sai x) as Hu;
      destruct (struct_unpack_I x) as [t|e|k];
        [|discriminate|now destruct (Hu k)]
  end.
  rewrite bind_run. unfold gravar.
  destruct (disco w !! os_path_join pasta nome) as [[?|]|];
    try discriminate; rewrite bind_print; apply IH.
Qed.

Lemma desempacotar_dados_nao_sai (dados : bytes) (pasta : str)
    (w w' : mundo) (c : N) :
  desempacotar_dados dados pasta w <> (Sai c, w').
Proof.
  unfold desempacotar_dados. rewrite bind_elevar.
  match goal with
  | |- context [struct_unpack_I ?x] =>
      pose proof (struct_unpack_I_nao_sai x) as Hu;
      destruct (struct_unpack_I x) as [t|e|k];
        [|discriminate|now destruct (Hu k)]
  end.
  rewrite bind_print, bind_run.
  match goal with
  | |- context [desempacotar_arquivos ?d ?p ?n ?q ?v] =>
      pose proof (desempacotar_arquivos_nao_sai d p n q v) as Hl;
      destruct (desempacotar_arquivos d p n q v) as [[[]|e|k] w1];
        [|discriminate|now destruct (Hl w1 k)]
  end.
  rewrite !bind_print. discriminate.
Qed.

Lemma descomprimir_desempacotar_desfecho `{Zlib} (arquivo_dmd : str)
    (pasta_destino : option str) (w : mundo) :
  (descomprimir_desempacotar arquivo_dmd pasta_destino w).1 = Retorno tt
  \/ (descomprimir_desempacotar arquivo_dmd pasta_destino w).1 = Sai 1.
Proof.
  remember (descomprimir_desempacotar arquivo_dmd pasta_destino w) as res
    eqn:Hres.
  unfold descomprimir_desempacotar in Hres. rewrite bind_run in Hres.
  unfold os_path_exists at 1 in Hres.
  destruct (disco w !! arquivo_dmd) as [[f|]|] eqn:Hd; cbn [negb] in Hres.
  - rewrite try_except_run, bind_run in Hres. unfold ler in Hres.
    rewrite Hd in Hres.
    destruct (bool_decide (fatia f 0 4 ≠ MAGIC_NUMBER)).
    + rewrite bind_run, bind_print in Hres. subst res. now right.
    + rewrite bind_ret, bind_print, bind_run in Hres.
      unfold descomprimir in Hres.
      destruct (zlib_decompress (drop 4 f)) as [dados|];
        [|rewrite bind_print in Hres; subst res; now right].
      rewrite preparar_run in Hres.
      match type of Hres with
      | context [desempacotar_dados ?d ?p ?v] =>
          pose proof (desempacotar_dados_nao_sai d p v) as Hs;
          destruct (desempacotar_dados d p v) as [[[]|e|k] w1]
      end.
      * subst res. now left.
      * rewrite bind_print in Hres. subst res. now right.
      * now destruct (Hs w1 k).
  - rewrite try_except_run, bind_run in Hres. unfold ler in Hres.
    rewrite Hd in Hres. rewrite bind_print in Hres. subst res. now right.
  - rewrite bind_print in Hres. subst res. now right.
Qed.

(** The unpacker ends in one of two ways, whatever the archive holds: it
    returns, or it has printed an error and leaves with exit status 1. No
    exception escapes it, and [sys.exit] is never called with another
    status. *)
Theorem unpack_returns_or_exits_1 `{Zlib} (arquivo_dmd : str)
    (pasta_destino : option str) (w : mundo) :
  (descomprimir_desempacotar arquivo_dmd pasta_destino w).1 = Retorno tt
  \/ (descomprimir_desempacotar arquivo_dmd pasta_destino w).1 = Sai 1.
Proof. apply descomprimir_desempacotar_desfecho. Qed.

Lemma os_path_join_absoluto (a r : str) :
  os_path_join a (barra :: r) = barra :: r.
Proof.
  unfold os_path_join, startswith. cbn [length take].
  now rewrite bool_decide_eq_true_2.
Qed.

(** Where the content of a path comes from after the files are written:
    the last file that landed there, or the disk as it was. *)
Lemma extrair_lookup (pasta : str) (xs : list (str * bytes)) :
  forall (d : gmap str no) (k : str),
    extrair pasta d xs !! k
    = match ultimo pasta xs k with
      | Some c => Some (Arquivo c)
      | None => d !! k
      end.
Proof.
  induction xs as [|x xs IH]; intros d k; [reflexivity|].
  simpl. rewrite IH. destruct (ultimo pasta xs k); [reflexivity|].
  case_decide as Hk.
  - subst k. apply lookup_insert_eq.
  - now apply lookup_insert_ne.
Qed.




Lemma preparar_existe (pasta : str) (d : gmap str no) :
  is_Some (preparar pasta d !! pasta).
Proof.
  unfold preparar. destruct (d !! pasta) eqn:E; [rewrite E; eauto|].
  rewrite lookup_insert_eq. eauto.
Qed.




Section Entradas.
Context `{Zlib}.

(** When the unpacker returns on an archive that holds the files [xs],
    the destination has been prepared and every file written, in
    order. *)
Lemma descomprimir_desempacotar_arquivo_com (arquivo_dmd : str)
    (pasta_destino : option str) (w w' : mundo) (xs : list (str * bytes)) :
  let pasta := pasta_efetiva arquivo_dmd pasta_destino in
  arquivo_com (disco w) arquivo_dmd xs ->
  descomprimir_desempacotar arquivo_dmd pasta_destino w = (Retorno tt, w') ->
  w' = com_traco (com_disco w (extrair pasta (preparar pasta (disco w)) xs))
         ([Print MsgDescomprimindo; ZlibDecompress;
           Print (MsgDesempacotando (len xs))]
          ++ linhas_extraidas xs
          ++ [Print MsgSucesso; Print (MsgExtraidosEm pasta)]).
Proof.
  intros pasta (comprimidos & entries & Hd & Hz & Hn & Hall).
  exact (descomprimir_desempacotar_retorno arquivo_dmd pasta_destino w w'
           comprimidos entries xs Hd Hz Hn Hall).
Qed.

End Entradas.

Lemma arquivo_com_repetido :
  arquivo_com (H := zlib_moldura) disco_repetido (py "r.dmd")
    arquivos_repetidos.
Proof.
  exists (moldura_compress
            (Payload 3 [(ascii_bytes "n", ascii_bytes "um");
                        (ascii_bytes "m", ascii_bytes "x");
                        (ascii_bytes "n", ascii_bytes "dois")]) 9),
    [(ascii_bytes "n", ascii_bytes "um");
     (ascii_bytes "m", ascii_bytes "x");
     (ascii_bytes "n", ascii_bytes "dois")].
  split; [vm_compute; reflexivity|]. split; [reflexivity|].
  split; [vm_compute; reflexivity|].
  repeat (constructor;
          [vm_compute; repeat split; try reflexivity; discriminate|]).
  constructor.
Qed.

Lemma nome_simples_repetidos : Forall nome_simples arquivos_repetidos.
Proof.
  repeat (constructor;
          [unfold nome_simples; cbn [fst];
           intros Hin; repeat (apply elem_of_cons in Hin as [Hin|Hin];
                               [discriminate|]);
           now apply elem_of_nil in Hin|]).
  constructor.
Qed.

(** Unpacking writes every entry. Take an archive that holds the files
    [xs], whose names have no ['/'] in them. Whenever the unpacker returns
    on it, the destination exists; each file is at the join of the
    destination and its name, with its content, unless a later entry has
    the same name; and the lines printed are the decompression line, the
    count, one line per entry in order, the success line and the
    destination. *)
Theorem unpack_writes_every_entry `{Zlib} (arquivo_dmd : str)
    (pasta_destino : option str) (w w' : mundo) (xs : list (str * bytes)) :
  let pasta := pasta_efetiva arquivo_dmd pasta_destino in
  arquivo_com (disco w) arquivo_dmd xs ->
  Forall nome_simples xs ->
  descomprimir_desempacotar arquivo_dmd pasta_destino w = (Retorno tt, w') ->
  is_Some (disco w' !! pasta)
  /\ (forall (i : nat) (x : str * bytes),
        xs !! i = Some x ->
        (forall (j : nat) (y : str * bytes),
           (i < j)%nat -> xs !! j = Some y -> y.1 <> x.1) ->
        disco w' !! os_path_join pasta x.1 = Some (Arquivo x.2))
  /\ traco w'
     = traco w
       ++ [Print MsgDescomprimindo; ZlibDecompress;
           Print (MsgDesempacotando (len xs))]
       ++ linhas_extraidas xs
       ++ [Print MsgSucesso; Print (MsgExtraidosEm pasta)].
Proof.
  intros pasta Harq Hsimples Hrun.
  apply (descomprimir_desempacotar_arquivo_com _ _ _ _ xs Harq) in Hrun.
  fold pasta in Hrun. subst w'. cbn [disco traco com_traco com_disco].
  split; [|split; [|reflexivity]].
  - rewrite extrair_lookup. destruct (ultimo pasta xs pasta); [eauto|].
    apply preparar_existe.
  - intros i x Hi Hlast. apply (extrair_lookup_ultimo pasta xs _ i x Hi).
    intros j y Hij Hj Heq. rewrite Forall_forall in Hsimples.
    apply os_path_join_inj in Heq.
    + exact (Hlast j y Hij Hj Heq).
    + apply Hsimples. exact (list_elem_of_lookup_2 _ _ _ Hj).
    + apply Hsimples. exact (list_elem_of_lookup_2 _ _ _ Hi).
Qed.

Lemma unpack_writes_every_entry_witness :
  is_Some (disco (descomprimir_desempacotar (py "r.dmd") None
                    (mundo_inicial disco_repetido)).2
             !! pasta_efetiva (py "r.dmd") None)
  /\ (forall (i : nat) (x : str * bytes),
        arquivos_repetidos !! i = Some x ->
        (forall (j : nat) (y : str * bytes),
           (i < j)%nat -> arquivos_repetidos !! j = Some y -> y.1 <> x.1) ->
        disco (descomprimir_desempacotar (py "r.dmd") None
                 (mundo_inicial disco_repetido)).2
          !! os_path_join (pasta_efetiva (py "r.dmd") None) x.1
        = Some (Arquivo x.2))
  /\ traco (descomprimir_desempacotar (py "r.dmd") None
              (mundo_inicial disco_repetido)).2
     = traco (mundo_inicial disco_repetido)
       ++ [Print MsgDescomprimindo; ZlibDecompress;
           Print (MsgDesempacotando (len arquivos_repetidos))]
       ++ linhas_extraidas arquivos_repetidos
       ++ [Print MsgSucesso;
           Print (MsgExtraidosEm (pasta_efetiva (py "r.dmd") None))].
Proof.
  apply (unpack_writes_every_entry (py "r.dmd") None
           (mundo_inicial disco_repetido)
           (descomprimir_desempacotar (py "r.dmd") None
              (mundo_inicial disco_repetido)).2 arquivos_repetidos).
  - exact arquivo_com_repetido.
  - exact nome_simples_repetidos.
  - vm_compute. reflexivity.
Defined.



(** An entry with an absolute name leaves the destination. Take an
    archive whose last entry is named by a path that starts with ['/'].
    Whenever the unpacker returns on it, the content of that entry is at
    that very path, whatever the destination directory is. *)
Theorem unpack_absolute_name_escapes `{Zlib} (arquivo_dmd : str)
    (pasta_destino : option str) (w w' : mundo) (xs : list (str * bytes))
    (nome : str) (c : bytes) :
  arquivo_com (disco w) arquivo_dmd (xs ++ [(barra :: nome, c)]) ->
  descomprimir_desempacotar arquivo_dmd pasta_destino w = (Retorno tt, w') ->
  disco w' !! (barra :: nome) = Some (Arquivo c).
Proof.
  intros Harq Hrun.
  apply (descomprimir_desempacotar_arquivo_com _ _ _ _ _ Harq) in Hrun.
  subst w'. cbn [disco com_traco com_disco].
  unfold extrair. rewrite foldl_app. cbn [foldl fst snd].
  rewrite os_path_join_absoluto. apply lookup_insert_eq.
Qed.

Lemma unpack_absolute_name_escapes_witness :
  disco (descomprimir_desempacotar (py "s.dmd") None
           (mundo_inicial disco_absoluto)).2
    !! (barra :: py "tmp/fora")
  = Some (Arquivo (ascii_bytes "x")).
Proof.
  apply (unpack_absolute_name_escapes (py "s.dmd") None
           (mundo_inicial disco_absoluto)
           (descomprimir_desempacotar (py "s.dmd") None
              (mundo_inicial disco_absoluto)).2
           [(py "n", ascii_bytes "um")] (py "tmp/fora") (ascii_bytes "x")).
  - exists (moldura_compress
              (Payload 2 [(ascii_bytes "n", ascii_bytes "um");
                          (ascii_bytes "/tmp/fora", ascii_bytes "x")]) 9),
      [(ascii_bytes "n", ascii_bytes "um");
       (ascii_bytes "/tmp/fora", ascii_bytes "x")].
    split; [vm_compute; reflexivity|]. split; [reflexivity|].
    split; [vm_compute; reflexivity|].
    repeat (constructor;
            [vm_compute; repeat split; try reflexivity; discriminate|]).
    constructor.
  - vm_compute. reflexivity.
Defined.




(* ===================================================================== *)
(** * [main] *)
(* ===================================================================== *)

Lemma empacotar_comprimir_desfecho `{Zlib} (arquivos : list str)
    (saida : str) (w : mundo) :
  (empacotar_comprimir arquivos saida w).1 = Retorno tt
  \/ (empacotar_comprimir arquivos saida w).1 = Sai 1.
Proof.
  rewrite empacotar_comprimir_eq.
  destruct (montar_pacote arquivos w) as [[dados|e|c] w1] eqn:Em.
  - cbv zeta. destruct (disco w1 !! nome_saida saida) as [[?|]|];
      [now left | now right | now left].
  - now right.
  - exfalso. rewrite montar_pacote_eq in Em.
    destruct (struct_pack_I (len arquivos)) eqn:E.
    + now apply empacotar_arquivos_nao_sai in Em.
    + discriminate.
    + unfold struct_pack_I in E. now destruct (len arquivos <? 2 ^ 32).
Qed.

(** The words that count as the separator are the eight spellings of
    [and]. *)
Lemma eh_and_spec (f : str) :
  eh_and f = true
  <-> f ∈ [py "and"; py "anD"; py "aNd"; py "aND";
           py "And"; py "AnD"; py "ANd"; py "AND"].
Proof.
  split.
  - destruct f as [|a [|n [|d [|? ?]]]]; try discriminate.
    unfold eh_and. rewrite !andb_true_iff, !orb_true_iff, !N.eqb_eq.
    intros [[[-> | ->] [-> | ->]] [-> | ->]]; set_solver.
  - rewrite !elem_of_cons, elem_of_nil.
    intros [->|[->|[->|[->|[->|[->|[->|[->|[]]]]]]]]]; reflexivity.
Qed.

(** How [main] ends. Whatever the command line and the disk, [main]
    returns, or leaves with exit status 0 or 1; status 0 is that of a call
    with no argument at all. When [main] prints a line of its own (the
    help, the usage of the unpack mode, the complaint that no file was
    given), it touches neither the disk nor the log. *)
Theorem main_exit_status `{Zlib} (sys_argv : list str) (args : Namespace)
    (w : mundo) :
  ((main sys_argv args w).2.1 = Retorno tt
   \/ (main sys_argv args w).2.1 = Sai 0
   \/ (main sys_argv args w).2.1 = Sai 1)
  /\ ((main sys_argv args w).2.1 = Sai 0 <-> len sys_argv = 1)
  /\ ((main sys_argv args w).1 <> [] -> (main sys_argv args w).2.2 = w).
Proof.
  assert (Hpack : forall arquivos,
            (empacotar_comprimir arquivos (saida_de args) w).1 = Retorno tt
            \/ (empacotar_comprimir arquivos (saida_de args) w).1 = Sai 1)
    by (intros; apply empacotar_comprimir_desfecho).
  assert (Hunpack : forall a,
            (descomprimir_desempacotar a None w).1 = Retorno tt
            \/ (descomprimir_desempacotar a None w).1 = Sai 1)
    by (intros; apply descomprimir_desempacotar_desfecho).
  assert (Hfim : forall (ls : list linha_main) (r : resultado unit * mundo),
            len sys_argv <> 1 ->
            (r.1 = Retorno tt \/ r.1 = Sai 1) ->
            (ls <> [] -> r.2 = w) ->
            (r.1 = Retorno tt \/ r.1 = Sai 0 \/ r.1 = Sai 1)
            /\ (r.1 = Sai 0 <-> len sys_argv = 1)
            /\ (ls <> [] -> r.2 = w)).
  { intros ls r Hn Hr Hw. split; [tauto|]. split; [|exact Hw].
    split; [|tauto]. intros H0. destruct Hr as [Hr|Hr]; congruence. }
  unfold main. destruct (N.eqb_spec (len sys_argv) 1) as [H1|H1].
  { cbn [fst snd]. split; [auto|]. split; [tauto|]. reflexivity. }
  assert (Huso : (Sai (A := unit) 1 = Retorno tt \/ Sai (A := unit) 1 = Sai 1))
    by now right.
  destruct (un args).
  - destruct (ec args) as [[|a [|b l]]|].
    + now apply (Hfim [UsoDescomprimir] (Sai 1, w)).
    + apply (Hfim [] (descomprimir_desempacotar a None w));
        [exact H1 | apply Hunpack | done].
    + now apply (Hfim [UsoDescomprimir] (Sai 1, w)).
    + now apply (Hfim [UsoDescomprimir] (Sai 1, w)).
  - destruct (ec args) as [[|a l]|].
    + apply (Hfim [Ajuda] (Retorno tt, w)); [exact H1 | now left | done].
    + destruct (sem_and (a :: l)) as [|x arquivos].
      * now apply (Hfim [NenhumArquivo] (Sai 1, w)).
      * apply (Hfim [] (empacotar_comprimir (x :: arquivos) (saida_de args) w));
          [exact H1 | apply Hpack | done].
    + apply (Hfim [Ajuda] (Retorno tt, w)); [exact H1 | now left | done].
Qed.

(** What [main] packs. In pack mode (no [--un]), when [main] returns
    without a line of its own, the words of [--ec] spelled [and] in any
    case were dropped before packing, and the archive holds the entries of
    the other words that exist, in order, under a count of those other
    words; so a file named [and] is never packed. The archive is at the
    [--output] name, or at [pacote] when that is absent or empty, with the
    suffix [.dmd] the packer adds. *)
Theorem main_drops_and_words `{Zlib} (sys_argv : list str)
    (args : Namespace) (w w' : mundo) :
  un args = false ->
  main sys_argv args w = ([], (Retorno tt, w')) ->
  exists palavras entries,
    ec args = Some palavras
    /\ Forall (fun a => eh_and a = false) (sem_and palavras)
    /\ Forall2 (embutido (disco w))
         (existentes (disco w) (sem_and palavras)) entries
    /\ disco w'
       = <[nome_saida (saida_de args) :=
             Arquivo (MAGIC_NUMBER
                      ++ zlib_compress
                           (Payload (len (sem_and palavras)) entries) 9)]>
           (disco w).
Proof.
  intros Hun. unfold main. rewrite Hun.
  destruct (len sys_argv =? 1); [discriminate|].
  destruct (ec args) as [[|a l]|]; try discriminate.
  destruct (sem_and (a :: l)) as [|x arquivos] eqn:Es; [discriminate|].
  intros [= Hrun].
  apply empacotar_comprimir_retorno in Hrun as (entries & Hemb & _ & ->).
  exists (a :: l), entries. rewrite Es. repeat split; try assumption.
  rewrite <- Es. unfold sem_and. apply Forall_forall.
  now intros f [Hf _]%list_elem_of_filter.
Qed.

Lemma main_drops_and_words_witness :
  exists palavras entries,
    Some [py "a.txt"; py "AND"; py "b.bin"] = Some palavras
    /\ Forall (fun a => eh_and a = false) (sem_and palavras)
    /\ Forall2 (embutido (disco (mundo_inicial disco_exemplo)))
         (existentes (disco (mundo_inicial disco_exemplo))
            (sem_and palavras)) entries
    /\ disco (main (H := zlib_moldura)
                [py "diamond"; py "--ec"; py "a.txt"; py "AND"; py "b.bin"]
                {| ec := Some [py "a.txt"; py "AND"; py "b.bin"];
                   un := false; output := None |}
                (mundo_inicial disco_exemplo)).2.2
       = <[nome_saida (py "pacote") :=
             Arquivo (MAGIC_NUMBER
                      ++ zlib_compress
                           (Payload (len (sem_and palavras)) entries) 9)]>
           (disco (mundo_inicial disco_exemplo)).
Proof.
  apply (main_drops_and_words
           [py "diamond"; py "--ec"; py "a.txt"; py "AND"; py "b.bin"]
           {| ec := Some [py "a.txt"; py "AND"; py "b.bin"];
              un := false; output := None |}
           (mundo_inicial disco_exemplo)).
  - reflexivity.
  - vm_compute. reflexivity.
Defined.

(* ===================================================================== *)
(** * The default destination *)
(* ===================================================================== *)

Lemma rfind_lt (p : str) (c : N) : (rfind p c < Z.of_nat (length p))%Z.
Proof.
  induction p as [|x p IH]; simpl length; simpl rfind; [lia|].
  destruct (Z.leb_spec 0 (rfind p c)); [lia|].
  destruct (x =? c); lia.
Qed.

Lemma rfind_app_nao (p s : str) (c : N) :
  c ∉ s -> rfind (p ++ s) c = rfind p c.
Proof.
  intros Hc. induction p as [|x p IH]; simpl.
  - induction s as [|y s IHs]; [reflexivity|].
    apply not_elem_of_cons in Hc as [Hy Hs]. simpl. rewrite (IHs Hs).
    simpl. destruct (N.eqb_spec y c); [congruence | reflexivity].
  - now rewrite IH.
Qed.

Lemma rfind_app_ultimo (p s : str) (c : N) :
  c ∉ s -> rfind (p ++ c :: s) c = Z.of_nat (length p).
Proof.
  intros Hc. induction p as [|x p IH].
  - pose proof (rfind_app_nao [] s c Hc) as Hs. simpl in Hs.
    simpl. rewrite Hs. simpl. now rewrite N.eqb_refl.
  - simpl app. simpl rfind. rewrite IH.
    destruct (Z.leb_spec 0 (Z.of_nat (length p))); simpl length; lia.
Qed.

(** [os.path.splitext] of a path that ends with [.dmd]: the suffix is the
    extension, unless the last component has nothing but dots before
    it. *)
Lemma os_path_splitext_dmd (p : str) :
  os_path_splitext (p ++ py ".dmd")
  = if forallb (N.eqb ponto) (basename p) then (p ++ py ".dmd", [])
    else (p, py ".dmd").
Proof.
  unfold os_path_splitext.
  change (py ".dmd") with (ponto :: py "dmd").
  assert (Hb : barra ∉ ponto :: py "dmd").
  { intros Hin. repeat (apply elem_of_cons in Hin as [Hin|Hin];
                        [discriminate|]).
    now apply elem_of_nil in Hin. }
  assert (Hp : ponto ∉ py "dmd").
  { intros Hin. repeat (apply elem_of_cons in Hin as [Hin|Hin];
                        [discriminate|]).
    now apply elem_of_nil in Hin. }
  rewrite (rfind_app_nao p _ barra Hb), (rfind_app_ultimo p _ ponto Hp).
  pose proof (rfind_ge p barra) as Hge. pose proof (rfind_lt p barra) as Hlt.
  destruct (Z.ltb_spec (rfind p barra) (Z.of_nat (length p))); [|lia].
  assert (Hf : fatia (p ++ ponto :: py "dmd") (Z.to_N (rfind p barra + 1))
                 (Z.to_N (Z.of_nat (length p)))
               = basename p).
  { unfold fatia, basename.
    replace (N.to_nat (Z.to_N (rfind p barra + 1)))
      with (Z.to_nat (rfind p barra + 1)) by lia.
    rewrite drop_app_le by lia.
    replace (N.to_nat (Z.to_N (Z.of_nat (length p)) - Z.to_N (rfind p barra + 1)))
      with (length (drop (Z.to_nat (rfind p barra + 1)) p))
      by (rewrite length_drop; lia).
    now rewrite take_app_length. }
  rewrite Hf. destruct (forallb (N.eqb ponto) (basename p)); [reflexivity|].
  rewrite Nat2Z.id. now rewrite take_app_length, drop_app_length.
Qed.

(** The default destination. The archive [p.dmd] is unpacked, when no
    destination is given, into [p_extraido]; only when the last component
    of [p] is empty or made of dots alone does the suffix stay in the
    name, and the destination is [p.dmd_extraido]. *)
Theorem default_destination (p : str) :
  pasta_efetiva (p ++ py ".dmd") None
  = if forallb (N.eqb ponto) (basename p) then p ++ py ".dmd_extraido"
    else p ++ py "_extraido".
Proof.
  unfold pasta_efetiva. rewrite os_path_splitext_dmd.
  destruct (forallb (N.eqb ponto) (basename p)); cbn [fst].
  - now rewrite <- app_assoc.
  - reflexivity.
Qed.

(* ===================================================================== *)
(** * Archives packed from a list with a missing path *)
(* ===================================================================== *)

(** Told of more entries than the buffer holds, the loop raises: on an
    entry, or on the index past the last one. *)
Lemma desempacotar_arquivos_faltam (pasta : str)
    (entries : list (bytes * bytes)) :
  Forall (fun e => len e.1 <= 255 /\ len e.2 < 2 ^ 32) entries ->
  forall (pre : bytes) (n : nat) (w : mundo),
    (length entries < n)%nat ->
    exists e w',
      desempacotar_arquivos (pre ++ flat_map Entry entries) pasta n
        (len pre) w
      = (Levanta e, w').
Proof.
  induction 1 as [|[nb c] entries [Hnb Hlc] _ IH]; intros pre n w Hn.
  - destruct n as [|n]; [simpl in Hn; lia|].
    cbn [desempacotar_arquivos flat_map]. rewrite bind_elevar, app_nil_r.
    rewrite lookup_ge_None_2 by (rewrite to_nat_len; lia). eauto.
  - destruct n as [|n]; [simpl in Hn; lia|]. cbn [fst snd] in Hnb, Hlc.
    cbn [flat_map].
    rewrite (desempacotar_arquivos_passo pasta pre _ nb c n w Hnb Hlc).
    pose proof (decode_aux_nao_sai (length nb) nb) as Hs.
    unfold bytes_decode.
    destruct (decode_aux (length nb) nb) as [nome|e|k];
      [|eauto|now destruct (Hs k)].
    rewrite app_assoc.
    destruct (disco w !! os_path_join pasta nome) as [[?|]|]; eauto;
      apply IH; simpl in Hn; lia.
Qed.

Lemma existentes_menos (d : gmap str no) (arquivos : list str) (a : str) :
  a ∈ arquivos -> d !! a = None ->
  (length (existentes d arquivos) < length arquivos)%nat.
Proof.
  intros Ha Hd. unfold existentes.
  induction arquivos as [|x resto IH]; [now apply elem_of_nil in Ha|].
  pose proof (length_filter (fun a => is_Some (d !! a)) resto) as Hle.
  rewrite filter_cons. apply elem_of_cons in Ha as [<-|Ha].
  - rewrite decide_False by (rewrite Hd; now intros [? ?]). simpl. lia.
  - specialize (IH Ha). case_decide; simpl; lia.
Qed.

(** An archive packed from a list with a missing path cannot be read
    back. When the packer returns although one of the paths given did not
    exist, whatever else was packed, the unpacker fails on the archive it
    wrote: it ends with exit status 1 (the file count it reads is larger
    than the number of entries that follow). *)
Theorem archive_with_missing_path_is_rejected `{Zlib}
    (arquivos : list str) (saida : str) (pasta_destino : option str)
    (w w' : mundo) (a : str) :
  empacotar_comprimir arquivos saida w = (Retorno tt, w') ->
  a ∈ arquivos -> disco w !! a = None ->
  (descomprimir_desempacotar (nome_saida saida) pasta_destino w').1 = Sai 1.
Proof.
  intros (entries & Hemb & Hn & Hd)%empacotar_comprimir_retorno Ha Hfalta.
  rewrite (descomprimir_desempacotar_eq _ _ _
             (zlib_compress (Payload (len arquivos) entries) 9)
             (Payload (len arquivos) entries));
    [| rewrite Hd; apply lookup_insert_eq
     | now apply zlib_decompress_compress].
  assert (Hcampos : Forall (fun e => len e.1 <= 255 /\ len e.2 < 2 ^ 32)
                      entries).
  { clear -Hemb. induction Hemb as [|x e ? ? (Hnb & _ & Hc) _ IH];
      constructor; [|exact IH].
    split; [exact (nome_bytes_de_len _ _ Hnb) | exact Hc]. }
  assert (Hmenos : (length entries < length arquivos)%nat).
  { rewrite <- (Forall2_length _ _ _ Hemb).
    exact (existentes_menos _ _ a Ha Hfalta). }
  unfold desempacotar_dados. change (0 + 4) with 4.
  rewrite (fatia_em (Payload (len arquivos) entries) [] (u32 (len arquivos))
             (flat_map Entry entries) 0 4) by reflexivity.
  rewrite bind_elevar, struct_unpack_u32 by assumption.
  rewrite bind_print, bind_run. rewrite to_nat_len.
  change (Payload (len arquivos) entries)
    with (u32 (len arquivos) ++ flat_map Entry entries).
  change 4 with (len (u32 (len arquivos))) at 1.
  match goal with
  | |- context [desempacotar_arquivos ?d ?p ?n ?q ?v] =>
      destruct (desempacotar_arquivos_faltam p entries Hcampos
                  (u32 (len arquivos)) n v Hmenos) as (e & w1 & ->)
  end.
  reflexivity.
Qed.

Lemma archive_with_missing_path_is_rejected_witness :
  (descomprimir_desempacotar (nome_saida (py "saida")) None
     (empacotar_comprimir [py "a.txt"; py "falta.txt"] (py "saida")
        (mundo_inicial disco_exemplo)).2).1
  = Sai 1.
Proof.
  apply (archive_with_missing_path_is_rejected
           [py "a.txt"; py "falta.txt"] (py "saida") None
           (mundo_inicial disco_exemplo) _ (py "falta.txt")).
  - vm_compute. reflexivity.
  - apply elem_of_cons. right. apply elem_of_cons. now left.
  - vm_compute. reflexivity.
Defined.
